(** * setup.py: environment check script, shallow embedding

    The script is a linear pipeline of five stages driven by [main]: version
    gate, dependency checker, runner probe, credential scanner, template
    writer.  Every stage talks to the outside world (interpreter version,
    module loader, child processes, environment variables, one file).

    The outside world is a record of oracles, [World].  The script is
    embedded in a small monad [M] that takes the file system, collects the
    observable events in order and propagates Python exceptions; [try] /
    [except] is [try_except], a [for] loop is [for_each].

    Conventions of the model:
    - a Python [str] is a [string]; one [ascii] stands for one character of
      a value that is measured or sliced (environment values, captured
      output).  The glyphs of the fixed messages are written as they are in
      the source and are never measured;
    - [print] writes its line and does not raise;
    - an interrupt ([KeyboardInterrupt]) reaches the script where it waits:
      in a module load, a child process or a file operation;
    - a child process started without a timeout runs to its end or the call
      raises; a child that never ends is outside the model. *)

From Stdlib Require Import ZArith String Ascii List Lia.
From stdpp Require Import base gmap strings list pretty.

Local Open Scope Z_scope.

(** ** Python strings *)

Module PyStr.

(** The character written [\n] in the source. *)
Definition nl : string := String (ascii_of_nat 10) "".

(** [s * n] for a string [s]. *)
Fixpoint repeat (s : string) (n : nat) : string :=
  match n with
  | O => ""
  | S n' => s +:+ repeat s n'
  end.

(** [s[:n]]. *)
Fixpoint take (n : nat) (s : string) : string :=
  match n, s with
  | O, _ => ""
  | S _, EmptyString => ""
  | S n', String c s' => String c (take n' s')
  end.

(** [sub in s]: some position of [s] starts with [sub]. *)
Fixpoint contains (sub s : string) : bool :=
  String.prefix sub s ||
  match s with
  | EmptyString => false
  | String _ s' => contains sub s'
  end.

(** [sep.join(l)]. *)
Fixpoint join (sep : string) (l : list string) : string :=
  match l with
  | [] => ""
  | [x] => x
  | x :: l' => x +:+ sep +:+ join sep l'
  end.

(** [c.isspace()] on the characters below 256. *)
Definition isspace (c : ascii) : bool :=
  let n := nat_of_ascii c in
  ((9 <=? n)%nat && (n <=? 13)%nat) || ((28 <=? n)%nat && (n <=? 32)%nat)
  || (n =? 133)%nat || (n =? 160)%nat.

Fixpoint lstrip (s : string) : string :=
  match s with
  | EmptyString => ""
  | String c s' => if isspace c then lstrip s' else s
  end.

(** Drops the trailing white space: a character stays when it is not a
    space or when something stays after it. *)
Fixpoint rstrip (s : string) : string :=
  match s with
  | EmptyString => ""
  | String c s' =>
      match rstrip s' with
      | EmptyString => if isspace c then "" else String c ""
      | r => String c r
      end
  end.

(** [s.strip()]. *)
Definition strip (s : string) : string := rstrip (lstrip s).

(** A sequence of lines, each one closed by a newline. *)
Definition unlines (l : list string) : string :=
  fold_right (fun x acc => x +:+ nl +:+ acc) "" l.

End PyStr.

(** ** Exceptions

    The classes the script distinguishes.  All but [KeyboardInterrupt] and
    [SystemExit] derive from [Exception]. *)

Inductive exn : Type :=
| ImportError (msg : string)
| CalledProcessError (returncode : Z) (msg : string)
| TimeoutExpired (msg : string)
| OSError (msg : string)
| OtherException (msg : string)
| KeyboardInterrupt
| SystemExit (code : Z).

(** [isinstance(e, Exception)]. *)
Definition is_Exception (e : exn) : bool :=
  match e with
  | KeyboardInterrupt | SystemExit _ => false
  | _ => true
  end.

(** [str(e)], as interpolated by an f-string. *)
Definition exn_str (e : exn) : string :=
  match e with
  | ImportError msg | CalledProcessError _ msg | TimeoutExpired msg
  | OSError msg | OtherException msg => msg
  | KeyboardInterrupt => ""
  | SystemExit code => pretty code
  end.

(** ** The outside world *)

Record version_info_t : Type := VersionInfo { major : Z; minor : Z; micro : Z }.

(** What a child process started by [subprocess] does: it runs to the end,
    or the call raises (the binary is missing, the timeout expires, the user
    interrupts). *)
Inductive child : Type :=
| Completed (returncode : Z) (stdout : string)
| Failed (e : exn).

Record World : Type := {
  version_info : version_info_t;            (* sys.version_info *)
  executable : string;                      (* sys.executable *)
  import_module : string -> option exn;     (* importlib.import_module; None: loaded *)
  subprocess : list string -> child;        (* the child run for an argv *)
  environ : gmap string string;             (* os.environ *)
  open_w : string -> option exn;            (* open(path, "w"); None: opened *)
  write : string -> string -> option (exn * string)
                                            (* f.write(data) and the close; on failure
                                               the exception and what reached the file *)
}.

(** ** Observable events, in the order the script causes them *)

Inductive event : Type :=
| EPrint (line : string)
| EImport (name : string)
| ESpawn (argv : list string)
| EGetenv (name : string)
| EOpen (path : string)
| EWrite (path : string) (data : string).

(** ** The monad: file system in, events, file system and result out *)

Inductive result (A : Type) : Type :=
| Ret (a : A)
| Raise (e : exn).
Arguments Ret {A} a.
Arguments Raise {A} e.

Record outcome (A : Type) : Type := Out {
  trace : list event;
  disk : gmap string string;
  value : result A
}.
Arguments Out {A} trace disk value.
Arguments trace {A} o.
Arguments disk {A} o.
Arguments value {A} o.

Definition M (A : Type) : Type := gmap string string -> outcome A.

Definition ret {A} (a : A) : M A := fun fs => Out [] fs (Ret a).

Definition raise {A} (e : exn) : M A := fun fs => Out [] fs (Raise e).

Definition emit (ev : event) : M unit := fun fs => Out [ev] fs (Ret tt).

Definition bind {A B} (m : M A) (k : A -> M B) : M B :=
  fun fs =>
    let o := m fs in
    match value o with
    | Ret a => let o' := k a (disk o) in
               Out (trace o ++ trace o')%list (disk o') (value o')
    | Raise e => Out (trace o) (disk o) (Raise e)
    end.

Notation "x <- m ;; k" := (bind m (fun x => k))
  (at level 100, m at next level, right associativity).
Notation "m ;; k" := (bind m (fun _ => k))
  (at level 100, right associativity).

(** [try: body except ...: handler].  [handler e] is [None] when no except
    clause matches [e]; an exception raised by the handler is not caught
    again. *)
Definition try_except {A} (body : M A) (handler : exn -> option (M A)) : M A :=
  fun fs =>
    let o := body fs in
    match value o with
    | Ret _ => o
    | Raise e =>
        match handler e with
        | Some h => let o' := h (disk o) in
                    Out (trace o ++ trace o')%list (disk o') (value o')
        | None => o
        end
    end.

(** [print(s)]: one line on standard output. *)
Definition print (s : string) : M unit := emit (EPrint s).

(** ** The script *)

Section Script.

Variable w : World.

Definition print_header (text : string) : M unit :=
  print (PyStr.nl +:+ PyStr.repeat "=" 60) ;;
  print ("  " +:+ text) ;;
  print (PyStr.repeat "=" 60).

Definition print_step (step : Z) (text : string) : M unit :=
  print (PyStr.nl +:+ pretty step +:+ ". " +:+ text) ;;
  print (PyStr.repeat "-" 40).

Definition check_python_version : M bool :=
  let version := version_info w in
  let required_major := 3 in
  let required_minor := 8 in
  print ("Python version: " +:+ pretty (major version) +:+ "."
         +:+ pretty (minor version) +:+ "." +:+ pretty (micro version)) ;;
  if (required_major <=? major version) && (required_minor <=? minor version)
  then
    print "✅ Python version is compatible" ;;
    ret true
  else
    print ("❌ Python " +:+ pretty required_major +:+ "."
           +:+ pretty required_minor +:+ "+ is required") ;;
    ret false.

(** [subprocess.check_call(cmd)]: 0 when the child exits with 0, otherwise
    [CalledProcessError]; no timeout.  The text of the exception is
    shortened: its only caller catches it without looking at it. *)
Definition check_call (cmd : list string) : M Z :=
  emit (ESpawn cmd) ;;
  match subprocess w cmd with
  | Completed rc _ =>
      if rc =? 0 then ret 0
      else raise (CalledProcessError rc
                    ("Command returned non-zero exit status " +:+ pretty rc +:+ "."))
  | Failed e => raise e
  end.

Definition install_package (package : string) : M bool :=
  try_except
    (check_call [executable w; "-m"; "pip"; "install"; package] ;;
     ret true)
    (fun e => match e with
              | CalledProcessError _ _ => Some (ret false)
              | _ => None
              end).

(** [importlib.import_module(name)]. *)
Definition importlib_import_module (name : string) : M unit :=
  emit (EImport name) ;;
  match import_module w name with
  | None => ret tt
  | Some e => raise e
  end.

(** [for x in l: body], with the variables the body updates passed along. *)
Fixpoint for_each {A S : Type} (l : list A) (body : S -> A -> M S) (acc : S) : M S :=
  match l with
  | [] => ret acc
  | x :: l' => acc' <- body acc x ;; for_each l' body acc'
  end.

Definition required_packages : list (string * string) :=
  [ ("streamlit", "streamlit");
    ("google-generativeai", "google.generativeai");
    ("langchain", "langchain");
    ("langchain-community", "langchain_community");
    ("langchain-core", "langchain_core");
    ("langchain-qdrant", "langchain_qdrant");
    ("qdrant-client", "qdrant_client");
    ("pypdf", "pypdf");
    ("beautifulsoup4", "bs4");
    ("agno", "agno");
    ("requests", "requests");
    ("numpy", "numpy");
    ("python-dotenv", "dotenv") ].

(** The body of the loop of [check_and_install_dependencies]; [results] is
    the list built so far. *)
Definition check_package (results : list (string * bool)) (p : string * string)
  : M (list (string * bool)) :=
  let '(package_name, import_name) := p in
  try_except
    (importlib_import_module import_name ;;
     print ("✅ " +:+ package_name +:+ " is installed") ;;
     ret (results ++ [(package_name, true)])%list)
    (fun e => match e with
              | ImportError _ =>
                  Some (print ("❌ " +:+ package_name +:+ " is not installed. Installing...") ;;
                        ok <- install_package package_name ;;
                        if ok then
                          print ("✅ Successfully installed " +:+ package_name) ;;
                          ret (results ++ [(package_name, true)])%list
                        else
                          print ("❌ Failed to install " +:+ package_name) ;;
                          ret (results ++ [(package_name, false)])%list)
              | _ => None
              end).

(** The loop, over any package table. *)
Definition check_packages (packages : list (string * string))
  : M (list (string * bool)) :=
  for_each packages check_package [].

Definition check_and_install_dependencies : M (list (string * bool)) :=
  check_packages required_packages.

(** [os.getenv(name)]. *)
Definition os_getenv (name : string) : M (option string) :=
  emit (EGetenv name) ;;
  ret (environ w !! name).

Definition env_vars : list (string * string) :=
  [ ("GOOGLE_API_KEY", "Google AI API Key");
    ("QDRANT_API_KEY", "Qdrant API Key");
    ("QDRANT_URL", "Qdrant URL");
    ("EXA_API_KEY", "Exa AI API Key (Optional)") ].

(** The body of the loop of [check_environment_variables].  [if value:]
    holds for a value that is neither [None] nor the empty string. *)
Definition check_env_var (_ : unit) (p : string * string) : M unit :=
  let '(var_name, description) := p in
  value <- os_getenv var_name ;;
  match value with
  | Some (String _ _ as value) =>
      let masked_value :=
        if (8 <? String.length value)%nat
        then PyStr.take 8 value +:+ "..."
        else value in
      print ("✅ " +:+ description +:+ ": " +:+ masked_value)
  | _ =>
      let optional := PyStr.contains "(Optional)" description in
      let status := if optional then "⚠️" else "❌" in
      print (status +:+ " " +:+ description +:+ ": Not set")
  end.

Definition check_environment_variables : M unit :=
  for_each env_vars check_env_var tt.

(** [subprocess.run(cmd, capture_output=True, text=True, timeout=...)]:
    return code and captured standard output.  Whether the timeout expires
    is the world's answer [Failed (TimeoutExpired _)]. *)
Definition subprocess_run (cmd : list string) (timeout : Z) : M (Z * string) :=
  emit (ESpawn cmd) ;;
  match subprocess w cmd with
  | Completed rc out => ret (rc, out)
  | Failed e => raise e
  end.

Definition test_streamlit : M bool :=
  try_except
    (result <- subprocess_run [executable w; "-m"; "streamlit"; "version"] 10 ;;
     if fst result =? 0 then
       print "✅ Streamlit is working correctly" ;;
       print ("   Version: " +:+ PyStr.strip (snd result)) ;;
       ret true
     else
       print "❌ Streamlit test failed" ;;
       ret false)
    (fun e => if is_Exception e
              then Some (print ("❌ Streamlit test error: " +:+ exn_str e) ;;
                         ret false)
              else None).

Definition env_template : string :=
  PyStr.unlines
  [ "# API Keys for Agentic RAG Application";
    "# Copy this file to .env and fill in your actual API keys";
    "";
    "# Required: Google AI API Key";
    "# Get from: https://aistudio.google.com/";
    "GOOGLE_API_KEY=your_google_api_key_here";
    "";
    "# Required: Qdrant Vector Database";
    "# Get from: https://cloud.qdrant.io/";
    "QDRANT_API_KEY=your_qdrant_api_key_here";
    "QDRANT_URL=https://your-cluster.cloud.qdrant.io:6333";
    "";
    "# Optional: Exa AI for web search";
    "# Get from: https://exa.ai/";
    "EXA_API_KEY=your_exa_api_key_here" ].

(** [with open(path, "w") as f: f.write(data)].  Opening truncates the file;
    a failed write leaves what the world says reached the file. *)
Definition write_file (path data : string) : M unit :=
  fun fs =>
    match open_w w path with
    | Some e => Out [EOpen path] fs (Raise e)
    | None =>
        match write w path data with
        | Some (e, partial) =>
            Out [EOpen path; EWrite path data] (<[path := partial]> fs) (Raise e)
        | None =>
            Out [EOpen path; EWrite path data] (<[path := data]> fs) (Ret tt)
        end
    end.

Definition create_env_template : M bool :=
  try_except
    (write_file ".env.template" env_template ;;
     print "✅ Created .env.template file" ;;
     print "   Copy this to .env and fill in your API keys" ;;
     ret true)
    (fun e => if is_Exception e
              then Some (print ("❌ Failed to create .env.template: " +:+ exn_str e) ;;
                         ret false)
              else None).

(** The end-of-stage summary of step 2 in [main]. *)
Definition report_dependencies (results : list (string * bool)) : M unit :=
  let failed_packages := map fst (List.filter (fun r => negb (snd r)) results) in
  match failed_packages with
  | _ :: _ =>
      print (PyStr.nl +:+ "❌ Failed to install packages: "
             +:+ PyStr.join ", " failed_packages) ;;
      print "Please install them manually using:" ;;
      for_each failed_packages
        (fun _ pkg => print ("   pip install " +:+ pkg)) tt
  | [] =>
      print (PyStr.nl +:+ "✅ All dependencies are installed")
  end.

Definition main : M bool :=
  print_header "Agentic RAG Setup and Environment Check" ;;
  (* Step 1: Check Python version *)
  print_step 1 "Checking Python Version" ;;
  ok <- check_python_version ;;
  if negb ok then
    print (PyStr.nl +:+ "❌ Setup failed: Incompatible Python version") ;;
    ret false
  else
  (* Step 2: Install dependencies *)
  print_step 2 "Checking and Installing Dependencies" ;;
  results <- check_and_install_dependencies ;;
  report_dependencies results ;;
  (* Step 3: Test Streamlit *)
  print_step 3 "Testing Streamlit" ;;
  test_streamlit ;;
  (* Step 4: Check environment variables *)
  print_step 4 "Checking Environment Variables" ;;
  check_environment_variables ;;
  (* Step 5: Create environment template *)
  print_step 5 "Creating Environment Template" ;;
  create_env_template ;;
  (* Final instructions *)
  print_header "Setup Complete!" ;;
  print (PyStr.nl +:+ "Next steps:") ;;
  print "1. Copy .env.template to .env" ;;
  print "2. Fill in your API keys in the .env file" ;;
  print "3. See API_KEYS_SETUP.md for detailed instructions on getting API keys" ;;
  print "4. Run the application with: streamlit run main.py" ;;
  print (PyStr.nl +:+ "For help with API keys, see: API_KEYS_SETUP.md") ;;
  ret true.

(** [sys.exit(code)]. *)
Definition sys_exit (code : Z) : M unit := raise (SystemExit code).

(** The block under [if __name__ == "__main__"]: the value of [main()] is
    dropped. *)
Definition script : M unit :=
  try_except
    (main ;; ret tt)
    (fun e => match e with
              | KeyboardInterrupt =>
                  Some (print (PyStr.nl +:+ PyStr.nl +:+ "❌ Setup interrupted by user") ;;
                        sys_exit 1)
              | _ =>
                  if is_Exception e
                  then Some (print (PyStr.nl +:+ PyStr.nl
                                    +:+ "❌ Setup failed with error: " +:+ exn_str e) ;;
                             sys_exit 1)
                  else None
              end).

End Script.

(** The exit status of the interpreter once the script has run: 0 at the end
    of the file, the code of [sys.exit], 1 for an uncaught exception. *)
Definition exit_status {A} (o : outcome A) : Z :=
  match value o with
  | Ret _ => 0
  | Raise (SystemExit code) => code
  | Raise _ => 1
  end.

(** ** Reading a trace *)

Definition is_print (ev : event) : bool :=
  match ev with
  | EPrint _ => true
  | _ => false
  end.

(** The modules probed, in order. *)
Definition imports_of (t : list event) : list string :=
  omap (fun ev => match ev with EImport n => Some n | _ => None end) t.

(** The child processes started, in order. *)
Definition spawns_of (t : list event) : list (list string) :=
  omap (fun ev => match ev with ESpawn argv => Some argv | _ => None end) t.

(** The command line of [pip install package]. *)
Definition pip_argv (w : World) (package : string) : list string :=
  [executable w; "-m"; "pip"; "install"; package].

(** The command line of the Streamlit probe. *)
Definition streamlit_argv (w : World) : list string :=
  [executable w; "-m"; "streamlit"; "version"].

(** The import probe of a module succeeded. *)
Definition probe_ok (w : World) (import_name : string) : bool :=
  match import_module w import_name with
  | None => true
  | Some _ => false
  end.

(** The [pip install] child of a package exited with code 0. *)
Definition pip_exit_0 (w : World) (package : string) : bool :=
  match subprocess w (pip_argv w package) with
  | Completed rc _ => rc =? 0
  | Failed _ => false
  end.

(** The success flag of a package, in the words of the claim: the probe
    succeeded or the install exited with code 0. *)
Definition resolved (w : World) (p : string * string) : bool :=
  probe_ok w (snd p) || pip_exit_0 w (fst p).

(** [install_package] comes back with an answer: the child ran to its end,
    or the call raised [CalledProcessError]. *)
Definition pip_settles (w : World) (package : string) : Prop :=
  match subprocess w (pip_argv w package) with
  | Completed _ _ => True
  | Failed (CalledProcessError _ _) => True
  | Failed _ => False
  end.

(** The conditions under which the dependency stage gets through a package
    table: a probe loads the module or raises [ImportError], and in the
    second case the install comes back with an answer. *)
Definition tame (w : World) (packages : list (string * string)) : Prop :=
  forall package_name import_name,
    (package_name, import_name) ∈ packages ->
    import_module w import_name = None \/
    ((exists msg, import_module w import_name = Some (ImportError msg)) /\
     pip_settles w package_name).

(** The packages of a result list whose flag is False. *)
Definition failed_of (results : list (string * bool)) : list string :=
  map fst (List.filter (fun r => negb (snd r)) results).

(** The header of step 2 and of step 3. *)
Definition step_2_header : list event :=
  [EPrint (PyStr.nl +:+ "2. Checking and Installing Dependencies");
   EPrint (PyStr.repeat "-" 40)].

Definition step_3_header : list event :=
  [EPrint (PyStr.nl +:+ "3. Testing Streamlit");
   EPrint (PyStr.repeat "-" 40)].

(** [sub] occurs in [s], in the words of the description of [in]. *)
Definition occurs_in (sub s : string) : Prop :=
  exists a b, s = a +:+ sub +:+ b.

(** The lines printed before the version is looked at. *)
Definition banner : list event :=
  [EPrint (PyStr.nl +:+ PyStr.repeat "=" 60);
   EPrint "  Agentic RAG Setup and Environment Check";
   EPrint (PyStr.repeat "=" 60);
   EPrint (PyStr.nl +:+ "1. Checking Python Version");
   EPrint (PyStr.repeat "-" 40)].

Definition step_4_header : list event :=
  [EPrint (PyStr.nl +:+ "4. Checking Environment Variables");
   EPrint (PyStr.repeat "-" 40)].

Definition step_5_header : list event :=
  [EPrint (PyStr.nl +:+ "5. Creating Environment Template");
   EPrint (PyStr.repeat "-" 40)].

(** The final instructions of [main]. *)
Definition closing : list event :=
  [EPrint (PyStr.nl +:+ PyStr.repeat "=" 60);
   EPrint "  Setup Complete!";
   EPrint (PyStr.repeat "=" 60);
   EPrint (PyStr.nl +:+ "Next steps:");
   EPrint "1. Copy .env.template to .env";
   EPrint "2. Fill in your API keys in the .env file";
   EPrint "3. See API_KEYS_SETUP.md for detailed instructions on getting API keys";
   EPrint "4. Run the application with: streamlit run main.py";
   EPrint (PyStr.nl +:+ "For help with API keys, see: API_KEYS_SETUP.md")].

(** The output of [main] from its first line to the header of step 3, for
    the results of the dependency stage. *)
Definition up_to_step_3 (w : World) (fs : gmap string string)
    (results : list (string * bool)) : list event :=
  banner ++ trace (check_python_version w fs) ++ step_2_header
  ++ trace (check_and_install_dependencies w fs)
  ++ trace (report_dependencies results fs) ++ step_3_header.

(** The variables read, in order. *)
Definition getenvs_of (t : list event) : list string :=
  omap (fun ev => match ev with EGetenv n => Some n | _ => None end) t.

(** What the line printed for a variable has to be, case by case: masked
    preview, raw value, and the two warnings for a variable that is unset or
    set to the empty string. *)
Definition env_line_spec (w : World) (var desc line : string) : Prop :=
  (forall v, environ w !! var = Some v -> (8 < String.length v)%nat ->
     exists first8 rest,
       v = first8 +:+ rest /\ String.length first8 = 8%nat /\
       line = "✅ " +:+ desc +:+ ": " +:+ first8 +:+ "...") /\
  (forall v, environ w !! var = Some v -> v <> "" -> (String.length v <= 8)%nat ->
     line = "✅ " +:+ desc +:+ ": " +:+ v) /\
  (environ w !! var = None \/ environ w !! var = Some "" ->
     (occurs_in "(Optional)" desc -> line = "⚠️ " +:+ desc +:+ ": Not set") /\
     (~ occurs_in "(Optional)" desc -> line = "❌ " +:+ desc +:+ ": Not set")).

(** The events of the credential scan for a list of variables and the lines
    printed for them. *)
Definition scan_events (vars : list (string * string)) (lines : list string)
  : list event :=
  concat (zip_with (fun p line => [EGetenv (fst p); EPrint line]) vars lines).

(** ** Reading the template *)

(** The lines of a text. *)
Fixpoint lines (s : string) : list string :=
  match s with
  | EmptyString => []
  | String c s' =>
      if Ascii.eqb c (ascii_of_nat 10) then "" :: lines s'
      else match lines s' with
           | [] => [String c ""]
           | l :: ls => String c l :: ls
           end
  end.

(** The blocks of lines that blank lines separate. *)
Fixpoint paragraphs (l : list string) : list (list string) :=
  match l with
  | [] => []
  | EmptyString :: l' => [] :: paragraphs l'
  | x :: l' =>
      match paragraphs l' with
      | [] => [[x]]
      | p :: ps => (x :: p) :: ps
      end
  end.

(** [name] and [value] of a line [name=value] that is not a comment. *)
Fixpoint split_at_equals (s : string) : option (string * string) :=
  match s with
  | EmptyString => None
  | String c s' =>
      if Ascii.eqb c "="%char then Some ("", s')
      else match split_at_equals s' with
           | Some (name, v) => Some (String c name, v)
           | None => None
           end
  end.

Definition assignment (line : string) : option (string * string) :=
  if String.prefix "#" line then None else split_at_equals line.

(** Of a block: the names it assigns, whether every value assigned is a
    placeholder (it holds the word your), and the number of comments that
    say where to get the credential. *)
Definition credential_block (block : list string)
  : list string * bool * nat :=
  (map fst (omap assignment block),
   forallb (fun a => PyStr.contains "your" (snd a)) (omap assignment block),
   List.length (List.filter (String.prefix "# Get from: ") block)).

(** ** What the whole script may do *)

(** The events the script is entitled to: it prints, probes the modules of
    the package list, starts the Streamlit probe or [pip install] for a
    package of the list whose probe raises [ImportError], reads the four
    variables, and opens and writes the template file with the template
    text. *)
Definition allowed (w : World) (ev : event) : Prop :=
  match ev with
  | EPrint _ => True
  | EImport name => name ∈ map snd required_packages
  | ESpawn argv =>
      argv = streamlit_argv w \/
      exists package_name import_name msg,
        (package_name, import_name) ∈ required_packages /\
        import_module w import_name = Some (ImportError msg) /\
        argv = pip_argv w package_name
  | EGetenv name => name ∈ map fst env_vars
  | EOpen path => path = ".env.template"
  | EWrite path data => path = ".env.template" /\ data = env_template
  end.

(** The file system after a run that leaves it alone ([None]) or leaves
    [content] in the template file. *)
Definition template_set (content : option string) (fs : gmap string string)
  : gmap string string :=
  match content with
  | None => fs
  | Some x => <[".env.template" := x]> fs
  end.

(** A computation whose events all satisfy [P], whose events and result do
    not depend on the file system it starts from, and whose only effect on
    the file system is on the template file. *)
Definition confined (P : event -> Prop) {A : Type} (m : M A) : Prop :=
  exists t content v,
    Forall P t /\ forall fs, m fs = Out t (template_set content fs) v.


(** Two states of a variable that the credential scanner cannot tell
    apart: the same state, both unset or empty, or two values longer than 8
    characters with the same first 8 characters. *)
Definition same_view (o1 o2 : option string) : Prop :=
  o1 = o2 \/
  ((o1 = None \/ o1 = Some "") /\ (o2 = None \/ o2 = Some "")) \/
  exists first8 rest1 rest2,
    String.length first8 = 8%nat /\ rest1 <> "" /\ rest2 <> "" /\
    o1 = Some (first8 +:+ rest1) /\ o2 = Some (first8 +:+ rest2).

(** ** Sample worlds *)

(** A machine with every module present, a working Streamlit, no variable
    set and a writable directory, for a given interpreter version. *)
Definition plain_world (v : version_info_t) : World := {|
  version_info := v;
  executable := "/usr/bin/python3";
  import_module := fun _ => None;
  subprocess := fun _ => Completed 0 ("Streamlit, version 1.30.0" +:+ PyStr.nl);
  environ := ∅;
  open_w := fun _ => None;
  write := fun _ _ => None
|}.

Definition with_environ (env : gmap string string) (w : World) : World := {|
  version_info := version_info w;
  executable := executable w;
  import_module := import_module w;
  subprocess := subprocess w;
  environ := env;
  open_w := open_w w;
  write := write w
|}.

Definition with_import_module (f : string -> option exn) (w : World) : World := {|
  version_info := version_info w;
  executable := executable w;
  import_module := f;
  subprocess := subprocess w;
  environ := environ w;
  open_w := open_w w;
  write := write w
|}.

Definition with_subprocess (f : list string -> child) (w : World) : World := {|
  version_info := version_info w;
  executable := executable w;
  import_module := import_module w;
  subprocess := f;
  environ := environ w;
  open_w := open_w w;
  write := write w
|}.

Definition with_files (o : string -> option exn)
    (wr : string -> string -> option (exn * string)) (w : World) : World := {|
  version_info := version_info w;
  executable := executable w;
  import_module := import_module w;
  subprocess := subprocess w;
  environ := environ w;
  open_w := o;
  write := wr
|}.

Definition world_3_11 : World := plain_world (VersionInfo 3 11 4).
Definition world_3_7 : World := plain_world (VersionInfo 3 7 9).

(** [bs4] is missing and [pip] cannot install anything. *)
Definition world_no_bs4 : World :=
  with_subprocess
    (fun argv => match argv with
                 | [_; _; "pip"; _; _] => Completed 1 ""
                 | _ => Completed 0 ("Streamlit, version 1.30.0" +:+ PyStr.nl)
                 end)
    (with_import_module
       (fun name => if String.eqb name "bs4"
                    then Some (ImportError "No module named 'bs4'")
                    else None)
       world_3_11).

(** Four credentials: a 20-character key, a 5-character URL, a required
    key that is unset and the optional key unset. *)
Definition world_keys : World :=
  with_environ {[ "GOOGLE_API_KEY" := "AIzaSyA-0123456789ab";
                  "QDRANT_URL" := "local" ]} world_3_11.

(** The same with the required key set to the empty string. *)
Definition world_empty_key : World :=
  with_environ (<["QDRANT_API_KEY" := ""]> (environ world_keys)) world_3_11.

(** The Streamlit probe runs into its timeout. *)
Definition world_timeout : World :=
  with_subprocess
    (fun _ => Failed (TimeoutExpired "Command timed out after 10 seconds"))
    world_3_11.

(** The directory is read-only. *)
Definition world_read_only : World :=
  with_files
    (fun _ => Some (OSError "[Errno 13] Permission denied: '.env.template'"))
    (fun _ _ => None) world_3_11.

(** The user presses Ctrl-C while the Streamlit probe waits for its child. *)
Definition world_interrupted : World :=
  with_subprocess (fun _ => Failed KeyboardInterrupt) world_3_11.

(** Nothing works: no module loads, [pip] exits with 1, Streamlit exits
    with 2 and the template cannot be written to the end. *)
Definition world_all_fail : World := {|
  version_info := VersionInfo 3 12 0;
  executable := "/usr/bin/python3";
  import_module := fun name => Some (ImportError ("No module named " +:+ name));
  subprocess := fun argv => match argv with
                            | [_; _; "pip"; _; _] => Completed 1 ""
                            | _ => Completed 2 ""
                            end;
  environ := ∅;
  open_w := fun _ => None;
  write := fun _ _ => Some (OSError "[Errno 28] No space left on device", "# API")
|}.

(** The module [langchain] is there but broken: loading it raises an
    exception that is not an [ImportError]. *)
Definition world_broken_module : World :=
  with_import_module
    (fun name => if String.eqb name "langchain"
                 then Some (OtherException "invalid syntax (chains.py, line 3)")
                 else None)
    world_3_11.

(** [world_keys] with another tail of the long key, the required key set to
    the empty string and a variable the script does not know. *)
Definition world_keys_variant : World :=
  with_environ {[ "GOOGLE_API_KEY" := "AIzaSyA-zzzzzzzzzzzzzzzzzzzzzzzz";
                  "QDRANT_URL" := "local";
                  "QDRANT_API_KEY" := "";
                  "HOME" := "/root" ]} world_3_11.

(** ** Running the monad *)

Section Run.

Context {A B : Type}.

Lemma run_bind_ret (m : M A) (k : A -> M B) fs t fs' a :
  m fs = Out t fs' (Ret a) ->
  bind m k fs = Out (t ++ trace (k a fs')) (disk (k a fs')) (value (k a fs')).
Proof. intros H. unfold bind. rewrite H. reflexivity. Qed.

Lemma run_bind_raise (m : M A) (k : A -> M B) fs t fs' e :
  m fs = Out t fs' (Raise e) ->
  bind m k fs = Out t fs' (Raise e).
Proof. intros H. unfold bind. rewrite H. reflexivity. Qed.

Lemma run_bind_print (s : string) (k : unit -> M B) fs :
  bind (print s) k fs =
  Out (EPrint s :: trace (k tt fs)) (disk (k tt fs)) (value (k tt fs)).
Proof. reflexivity. Qed.

End Run.

Lemma outcome_eta {A} (o : outcome A) : o = Out (trace o) (disk o) (value o).
Proof. destruct o; reflexivity. Qed.

(** ** Stage 1: the version gate *)

Example check_python_version_3_11 :
  check_python_version world_3_11 ∅ =
  Out [EPrint "Python version: 3.11.4"; EPrint "✅ Python version is compatible"]
      ∅ (Ret true).
Proof. reflexivity. Qed.

(** The gate only prints, and answers the conjunction of the two tests. *)
Lemma check_python_version_run w fs :
  exists l1 l2,
    check_python_version w fs =
    Out [EPrint l1; EPrint l2] fs
        (Ret ((3 <=? major (version_info w)) && (8 <=? minor (version_info w)))).
Proof.
  unfold check_python_version.
  destruct ((3 <=? major (version_info w)) && (8 <=? minor (version_info w)));
    eexists; eexists; reflexivity.
Qed.




(** ** The driver and the abort edge *)

Lemma print_header_run text fs :
  print_header text fs =
  Out [EPrint (PyStr.nl +:+ PyStr.repeat "=" 60); EPrint ("  " +:+ text);
       EPrint (PyStr.repeat "=" 60)] fs (Ret tt).
Proof. reflexivity. Qed.

Lemma print_step_run step text fs :
  print_step step text fs =
  Out [EPrint (PyStr.nl +:+ pretty step +:+ ". " +:+ text);
       EPrint (PyStr.repeat "-" 40)] fs (Ret tt).
Proof. reflexivity. Qed.

(** One step of [bind] whose first action is known to return. *)
Ltac run_with L :=
  erewrite run_bind_ret by (apply L); cbn [trace disk value].

Lemma main_rejected w fs :
  value (check_python_version w fs) = Ret false ->
  main w fs =
  Out (banner ++ trace (check_python_version w fs)
       ++ [EPrint (PyStr.nl +:+ "❌ Setup failed: Incompatible Python version")])
      fs (Ret false).
Proof.
  destruct (check_python_version_run w fs) as (l1 & l2 & E).
  rewrite E. cbn [value trace]. intros [= Hb].
  unfold main.
  run_with print_header_run. run_with print_step_run. run_with E.
  rewrite Hb. reflexivity.
Qed.

Lemma only_prints (t : list event) (ev : event) :
  forallb is_print t = true -> ev ∈ t -> is_print ev = true.
Proof.
  intros Hall Hin. apply list_elem_of_In in Hin.
  rewrite forallb_forall in Hall. exact (Hall ev Hin).
Qed.

(** When [main] returns, whatever it returns, the driver ends without
    raising and adds nothing. *)
Lemma script_after_return w fs b :
  value (main w fs) = Ret b ->
  script w fs = Out (trace (main w fs)) (disk (main w fs)) (Ret tt).
Proof.
  intros H. unfold script, try_except, bind. rewrite H. cbn.
  rewrite app_nil_r. reflexivity.
Qed.

(** C2: whenever [main] returns, True or False, the process exits with
    status 0; in particular a run turned away by the version gate makes
    [main] return False and still exits with status 0. *)
Theorem exit_status_ignores_main_result (w : World) (fs : gmap string string) :
  (forall b : bool, value (main w fs) = Ret b -> exit_status (script w fs) = 0) /\
  (value (check_python_version w fs) = Ret false ->
   value (main w fs) = Ret false /\ exit_status (script w fs) = 0).
Proof.
  assert (Hexit : forall b, value (main w fs) = Ret b -> exit_status (script w fs) = 0).
  { intros b Hb. rewrite (script_after_return w fs b Hb). reflexivity. }
  split; [exact Hexit|].
  intros Hgate. pose proof (main_rejected w fs Hgate) as Hmain.
  assert (Hv : value (main w fs) = Ret false) by (rewrite Hmain; reflexivity).
  split; [exact Hv | exact (Hexit false Hv)].
Qed.

Lemma exit_status_ignores_main_result_witness :
  value (main world_3_7 ∅) = Ret false /\ exit_status (script world_3_7 ∅) = 0.
Proof.
  apply (proj2 (exit_status_ignores_main_result world_3_7 ∅)).
  reflexivity.
Defined.

(** C3: when the version gate answers False, [main] returns False, its
    whole output is the banner, the version report and the failure line, so
    no module is probed, no child process is started, no environment
    variable is read, and the file system is left as it was. *)
Theorem main_aborts_on_version_failure (w : World) (fs : gmap string string) :
  value (check_python_version w fs) = Ret false ->
  value (main w fs) = Ret false /\
  trace (main w fs) =
    banner ++ trace (check_python_version w fs)
    ++ [EPrint (PyStr.nl +:+ "❌ Setup failed: Incompatible Python version")] /\
  forallb is_print (trace (main w fs)) = true /\
  imports_of (trace (main w fs)) = [] /\
  spawns_of (trace (main w fs)) = [] /\
  (forall name, EGetenv name ∉ trace (main w fs)) /\
  (forall path, EOpen path ∉ trace (main w fs)) /\
  (forall path data, EWrite path data ∉ trace (main w fs)) /\
  disk (main w fs) = fs.
Proof.
  intros Hgate. rewrite (main_rejected w fs Hgate). cbn [trace disk value].
  destruct (check_python_version_run w fs) as (l1 & l2 & ->). cbn [trace].
  match goal with |- context [forallb is_print ?t] =>
    assert (Hall : forallb is_print t = true) by reflexivity end.
  repeat split; try reflexivity.
  - intros name Hin. apply (only_prints _ _ Hall) in Hin. discriminate.
  - intros path Hin. apply (only_prints _ _ Hall) in Hin. discriminate.
  - intros path data Hin. apply (only_prints _ _ Hall) in Hin. discriminate.
Qed.

Lemma main_aborts_on_version_failure_witness :
  value (main world_3_7 ∅) = Ret false /\ disk (main world_3_7 ∅) = ∅.
Proof.
  pose proof (main_aborts_on_version_failure world_3_7 ∅ eq_refl) as H.
  split; [apply H | apply H].
Defined.

(** ** Stage 2: the dependency checker *)

Lemma install_package_run w package fs :
  install_package w package fs =
  match subprocess w (pip_argv w package) with
  | Completed rc _ => Out [ESpawn (pip_argv w package)] fs (Ret (rc =? 0))
  | Failed (CalledProcessError _ _) => Out [ESpawn (pip_argv w package)] fs (Ret false)
  | Failed e => Out [ESpawn (pip_argv w package)] fs (Raise e)
  end.
Proof.
  unfold install_package, check_call, try_except, bind, pip_argv.
  cbn [emit value trace disk].
  destruct (subprocess w _) as [rc out|e].
  - destruct (rc =? 0); reflexivity.
  - destruct e; reflexivity.
Qed.

Lemma install_package_settles w package fs :
  pip_settles w package ->
  install_package w package fs =
  Out [ESpawn (pip_argv w package)] fs (Ret (pip_exit_0 w package)).
Proof.
  intros H. rewrite install_package_run. unfold pip_settles, pip_exit_0 in *.
  destruct (subprocess w _) as [rc out|e]; [reflexivity|].
  destruct e; solve [reflexivity | contradiction].
Qed.

Lemma install_package_false w package fs :
  value (install_package w package fs) = Ret false ->
  pip_settles w package /\ pip_exit_0 w package = false.
Proof.
  rewrite install_package_run. unfold pip_settles, pip_exit_0.
  destruct (subprocess w _) as [rc out|e].
  - cbn. intros [= ->]. split; [exact I | reflexivity].
  - destruct e; cbn; intros H; try discriminate H. split; [exact I | reflexivity].
Qed.

(** One turn of the loop, when the probe loads the module. *)
Lemma check_package_present w results package_name import_name fs :
  import_module w import_name = None ->
  check_package w results (package_name, import_name) fs =
  Out [EImport import_name; EPrint ("✅ " +:+ package_name +:+ " is installed")]
      fs (Ret (results ++ [(package_name, true)])).
Proof.
  intros H. unfold check_package, try_except, bind, importlib_import_module.
  cbn [emit value trace disk]. rewrite H. reflexivity.
Qed.

(** One turn of the loop, when the probe raises [ImportError]. *)
Lemma check_package_missing w results package_name import_name msg fs :
  import_module w import_name = Some (ImportError msg) ->
  check_package w results (package_name, import_name) fs =
  let o := install_package w package_name fs in
  match value o with
  | Ret ok =>
      Out ([EImport import_name;
            EPrint ("❌ " +:+ package_name +:+ " is not installed. Installing...")]
           ++ trace o
           ++ [EPrint (if ok then "✅ Successfully installed " +:+ package_name
                       else "❌ Failed to install " +:+ package_name)])
          (disk o) (Ret (results ++ [(package_name, ok)]))
  | Raise e =>
      Out ([EImport import_name;
            EPrint ("❌ " +:+ package_name +:+ " is not installed. Installing...")]
           ++ trace o)
          (disk o) (Raise e)
  end.
Proof.
  intros H.
  unfold check_package, try_except, importlib_import_module, bind, print, emit,
    ret, raise.
  cbn [value trace disk]. rewrite H. cbn [value trace disk app].
  destruct (install_package w package_name fs) as [t fs' [[|]|e]];
    cbn [value trace disk app]; rewrite ?app_nil_r; reflexivity.
Qed.

(** One turn of the loop, when the probe raises anything else. *)
Lemma check_package_broken w results package_name import_name e fs :
  import_module w import_name = Some e ->
  (forall msg, e <> ImportError msg) ->
  check_package w results (package_name, import_name) fs =
  Out [EImport import_name] fs (Raise e).
Proof.
  intros H Hne.
  unfold check_package, try_except, importlib_import_module, bind, print, emit,
    ret, raise.
  cbn [value trace disk]. rewrite H. cbn [value trace disk app].
  destruct e; try reflexivity. exfalso. eapply Hne. reflexivity.
Qed.

(** What a turn that comes back has done. *)
Lemma check_package_returns w results p fs t fs' results' :
  check_package w results p fs = Out t fs' (Ret results') ->
  results' = results ++ [(fst p, resolved w p)] /\
  fs' = fs /\
  imports_of t = [snd p] /\
  spawns_of t = if probe_ok w (snd p) then [] else [pip_argv w (fst p)].
Proof.
  destruct p as [package_name import_name]. cbn [fst snd].
  unfold resolved, probe_ok, pip_exit_0. cbn [fst snd].
  destruct (import_module w import_name) as [e|] eqn:E.
  - destruct e as [msg| | | | | |];
      try (rewrite (check_package_broken _ _ _ _ _ _ E) by (intros ?; discriminate);
           discriminate).
    rewrite (check_package_missing _ _ _ _ _ _ E), install_package_run.
    destruct (subprocess w (pip_argv w package_name)) as [rc out|e].
    + cbn. intros [= <- <- <-]. destruct (rc =? 0); repeat split; reflexivity.
    + destruct e; cbn; intros H; try discriminate H.
      injection H as <- <- <-. repeat split; reflexivity.
  - rewrite (check_package_present _ _ _ _ _ E).
    intros [= <- <- <-]. repeat split; reflexivity.
Qed.

(** A turn comes back in a tame world. *)
Lemma check_package_total w results package_name import_name fs :
  import_module w import_name = None \/
  ((exists msg, import_module w import_name = Some (ImportError msg)) /\
   pip_settles w package_name) ->
  exists t,
    check_package w results (package_name, import_name) fs =
    Out t fs (Ret (results ++ [(package_name, resolved w (package_name, import_name))])).
Proof.
  unfold resolved, probe_ok. cbn [fst snd].
  intros [E | [[msg E] Hpip]]; rewrite E.
  - rewrite (check_package_present _ _ _ _ _ E). eexists. reflexivity.
  - rewrite (check_package_missing _ _ _ _ _ _ E).
    rewrite (install_package_settles _ _ _ Hpip). cbn.
    eexists. reflexivity.
Qed.

Lemma imports_of_app t1 t2 : imports_of (t1 ++ t2) = imports_of t1 ++ imports_of t2.
Proof. apply omap_app. Qed.

Lemma spawns_of_app t1 t2 : spawns_of (t1 ++ t2) = spawns_of t1 ++ spawns_of t2.
Proof. apply omap_app. Qed.

(** The loop over a package table, when it comes back: one result per
    entry, in order, each module probed once, [pip] started for the modules
    whose probe failed and for no other. *)
Lemma check_packages_returns w packages :
  forall results fs t fs' results',
    for_each packages (check_package w) results fs = Out t fs' (Ret results') ->
    results' = results ++ map (fun p => (fst p, resolved w p)) packages /\
    fs' = fs /\
    imports_of t = map snd packages /\
    spawns_of t =
      map (fun p => pip_argv w (fst p))
          (List.filter (fun p => negb (probe_ok w (snd p))) packages).
Proof.
  induction packages as [|p packages IH]; intros results fs t fs' results'.
  - cbn. intros [= <- <- <-]. rewrite app_nil_r. repeat split; reflexivity.
  - cbn [for_each]. unfold bind.
    destruct (check_package w results p fs) as [t1 fs1 [results1|e]] eqn:E1;
      cbn [value trace disk]; [|discriminate].
    intros [= <- <- Hv].
    apply check_package_returns in E1 as (-> & -> & Hi & Hs).
    destruct (IH _ _ _ _ _ (eq_trans (outcome_eta _) (f_equal _ Hv)))
      as (-> & Hfs & Hi' & Hs').
    rewrite imports_of_app, spawns_of_app, Hi, Hs, Hi', Hs', <- app_assoc.
    repeat split; try assumption; try reflexivity.
    cbn [List.filter map]. destruct (probe_ok w (snd p)); reflexivity.
Qed.

(** The loop over a package table comes back in a tame world. *)
Lemma check_packages_total w packages :
  tame w packages ->
  forall results fs,
    exists t,
      for_each packages (check_package w) results fs =
      Out t fs (Ret (results ++ map (fun p => (fst p, resolved w p)) packages)).
Proof.
  induction packages as [|[package_name import_name] packages IH];
    intros Htame results fs.
  - exists []. cbn. rewrite app_nil_r. reflexivity.
  - destruct (check_package_total w results package_name import_name fs) as [t1 E1].
    { apply Htame. left. }
    destruct (IH (fun p i Hin => Htame p i (list_elem_of_further _ _ _ Hin))
                 (results ++ [(package_name, resolved w (package_name, import_name))]) fs)
      as [t2 E2].
    exists (t1 ++ t2). cbn [for_each].
    rewrite (run_bind_ret _ _ _ _ _ _ E1), E2. cbn [trace disk value map fst].
    rewrite <- app_assoc. reflexivity.
Qed.

Lemma resolved_spec w package_name import_name :
  resolved w (package_name, import_name) = true <->
  import_module w import_name = None \/
  exists out, subprocess w (pip_argv w package_name) = Completed 0 out.
Proof.
  unfold resolved, probe_ok, pip_exit_0. cbn [fst snd].
  destruct (import_module w import_name) as [e|]; cbn [orb].
  - destruct (subprocess w (pip_argv w package_name)) as [rc out|e'].
    + split.
      * intros H%Z.eqb_eq. subst rc. right. exists out. reflexivity.
      * intros [H | [out' [= -> _]]]; [discriminate H | reflexivity].
    + split; [discriminate|]. intros [H | [out' H]]; discriminate H.
  - split; [left; reflexivity | reflexivity].
Qed.

(** C10: when [check_and_install_dependencies] returns, it returns one pair
    for each of the 13 entries of the package list, in the order of the
    list, with the display name and a flag that is True exactly when the
    import probe succeeded or the [pip install] child exited with code 0;
    each module was probed once, so no probe is repeated after an install;
    and it does return when every probe loads its module or raises
    [ImportError] and every install that is needed comes back. *)
Theorem check_and_install_dependencies_results (w : World) (fs : gmap string string) :
  length required_packages = 13%nat /\
  (forall results,
     value (check_and_install_dependencies w fs) = Ret results ->
     Forall2 (fun (p : string * string) (r : string * bool) =>
                fst r = fst p /\
                (snd r = true <->
                 import_module w (snd p) = None \/
                 exists out, subprocess w (pip_argv w (fst p)) = Completed 0 out))
             required_packages results /\
     imports_of (trace (check_and_install_dependencies w fs)) =
       map snd required_packages /\
     spawns_of (trace (check_and_install_dependencies w fs)) =
       map (fun p => pip_argv w (fst p))
           (List.filter (fun p => negb (probe_ok w (snd p))) required_packages)) /\
  (tame w required_packages ->
   exists results, value (check_and_install_dependencies w fs) = Ret results).
Proof.
  split; [reflexivity|]. split.
  - intros results Hv.
    destruct (check_packages_returns w required_packages [] fs _ _ _
                (eq_trans (outcome_eta _) (f_equal _ Hv))) as (-> & _ & Hi & Hs).
    split; [|split; assumption].
    cbn [app]. generalize required_packages. intros l.
    induction l as [|[package_name import_name] l IH]; cbn [map]; constructor.
    + split; [reflexivity|]. cbn [fst snd]. apply resolved_spec.
    + exact IH.
  - intros Htame.
    destruct (check_packages_total w required_packages Htame [] fs) as [t E].
    eexists. unfold check_and_install_dependencies, check_packages.
    rewrite E. reflexivity.
Qed.

Lemma world_no_bs4_tame : tame world_no_bs4 required_packages.
Proof.
  intros package_name import_name _.
  unfold world_no_bs4, with_subprocess, with_import_module, pip_settles.
  cbn [import_module subprocess pip_argv executable].
  destruct (String.eqb import_name "bs4").
  - right. split; [eexists; reflexivity | exact I].
  - left. reflexivity.
Qed.

Lemma check_and_install_dependencies_results_witness :
  (exists results,
     value (check_and_install_dependencies world_no_bs4 ∅) = Ret results) /\
  imports_of (trace (check_and_install_dependencies world_no_bs4 ∅)) =
    map snd required_packages.
Proof.
  pose proof (check_and_install_dependencies_results world_no_bs4 ∅)
    as (_ & Hret & Htotal).
  split.
  - apply Htotal. exact world_no_bs4_tame.
  - eapply Hret. vm_compute. reflexivity.
Defined.

(** ** The summary of stage 2 in [main] *)

Lemma for_each_print {X : Type} (f : X -> string) (l : list X) fs :
  for_each l (fun _ x => print (f x)) tt fs =
  Out (map (fun x => EPrint (f x)) l) fs (Ret tt).
Proof.
  induction l as [|x l IH]; [reflexivity|].
  cbn [for_each]. rewrite run_bind_print, IH. reflexivity.
Qed.

Lemma report_dependencies_run results fs :
  report_dependencies results fs =
  Out match failed_of results with
      | [] => [EPrint (PyStr.nl +:+ "✅ All dependencies are installed")]
      | failed =>
          EPrint (PyStr.nl +:+ "❌ Failed to install packages: "
                  +:+ PyStr.join ", " failed)
          :: EPrint "Please install them manually using:"
          :: map (fun pkg => EPrint ("   pip install " +:+ pkg)) failed
      end fs (Ret tt).
Proof.
  unfold report_dependencies, failed_of.
  destruct (map fst _) as [|pkg failed]; [reflexivity|].
  rewrite !run_bind_print, for_each_print. reflexivity.
Qed.

(** The output of [main] up to the header of step 3, once the version gate
    is passed and the dependency stage has come back. *)
Lemma main_through_dependencies w fs results :
  value (check_python_version w fs) = Ret true ->
  value (check_and_install_dependencies w fs) = Ret results ->
  exists rest,
    trace (main w fs) =
    (banner ++ trace (check_python_version w fs) ++ step_2_header)
    ++ trace (check_and_install_dependencies w fs)
    ++ trace (report_dependencies results fs)
    ++ step_3_header ++ rest.
Proof.
  intros Hgate Hdeps.
  destruct (check_python_version_run w fs) as (l1 & l2 & E).
  rewrite E in Hgate |- *. cbn [value trace] in Hgate |- *.
  injection Hgate as Hb.
  destruct (check_packages_returns w required_packages [] fs _ _ _
              (eq_trans (outcome_eta _) (f_equal _ Hdeps))) as (_ & Hfs & _).
  assert (Ed : check_and_install_dependencies w fs =
               Out (trace (check_and_install_dependencies w fs)) fs (Ret results)).
  { rewrite (outcome_eta (check_and_install_dependencies w fs)) at 1.
    unfold check_and_install_dependencies, check_packages in *.
    rewrite Hfs, Hdeps. reflexivity. }
  unfold main.
  run_with print_header_run. run_with print_step_run. run_with E.
  rewrite Hb. cbn [negb].
  run_with print_step_run. run_with Ed.
  run_with report_dependencies_run. run_with print_step_run.
  rewrite report_dependencies_run. cbn [trace].
  eexists. unfold banner, step_2_header, step_3_header.
  cbn [app]. rewrite <- ?app_assoc. reflexivity.
Qed.

Lemma failed_of_none w (l : list (string * string)) :
  (forall q, q ∈ l -> resolved w q = true) ->
  failed_of (map (fun q => (fst q, resolved w q)) l) = [].
Proof.
  induction l as [|q l IH]; intros H; [reflexivity|].
  unfold failed_of in *. cbn [map List.filter snd].
  rewrite (H q) by left. cbn [negb].
  apply IH. intros q' Hin. apply H. right. exact Hin.
Qed.

Lemma failed_of_single w (l : list (string * string)) (q0 : string * string) :
  NoDup l ->
  q0 ∈ l ->
  resolved w q0 = false ->
  (forall q, q ∈ l -> q <> q0 -> resolved w q = true) ->
  failed_of (map (fun q => (fst q, resolved w q)) l) = [fst q0].
Proof.
  induction l as [|q l IH]; intros Hnd Hin Hq0 Hrest.
  - inversion Hin.
  - apply NoDup_cons in Hnd as [Hq Hnd].
    apply elem_of_cons in Hin as [<- | Hin].
    + unfold failed_of. cbn [map List.filter snd fst]. rewrite Hq0. cbn [negb map fst].
      f_equal. apply failed_of_none. intros q Hql.
      apply Hrest; [right; exact Hql | intros ->; contradiction].
    + unfold failed_of. cbn [map List.filter snd].
      rewrite (Hrest q) by (left || (intros ->; contradiction)). cbn [negb].
      apply IH; try assumption.
      intros q' Hq' Hne. apply Hrest; [right; exact Hq' | exact Hne].
Qed.

Lemma required_packages_NoDup : NoDup required_packages.
Proof. apply (bool_decide_unpack _). vm_compute. exact I. Qed.

Lemma filter_probe_failed_nil w (l : list (string * string)) :
  (forall q, q ∈ l -> import_module w (snd q) = None) ->
  List.filter (fun p => negb (probe_ok w (snd p))) l = [].
Proof.
  induction l as [|q l IH]; intros H; [reflexivity|].
  cbn [List.filter]. unfold probe_ok at 1. rewrite (H q) by left. cbn [negb].
  apply IH. intros q' Hin. apply H. right. exact Hin.
Qed.

(** C5: when the import probe succeeds for every entry of the package list,
    [check_and_install_dependencies] starts no child process, hence no
    [pip install], and returns the flag True for every entry; the summary
    printed for these results is the single line "All dependencies are
    installed", and in a run of [main] past the version gate this line is
    all that stands between the output of the dependency loop and the header
    of step 3. *)
Theorem all_probes_succeed_no_install (w : World) (fs : gmap string string) :
  (forall package_name import_name,
     (package_name, import_name) ∈ required_packages ->
     import_module w import_name = None) ->
  spawns_of (trace (check_and_install_dependencies w fs)) = [] /\
  value (check_and_install_dependencies w fs) =
    Ret (map (fun p => (fst p, true)) required_packages) /\
  trace (report_dependencies (map (fun p => (fst p, true)) required_packages) fs) =
    [EPrint (PyStr.nl +:+ "✅ All dependencies are installed")] /\
  (value (check_python_version w fs) = Ret true ->
   exists rest,
     trace (main w fs) =
     (banner ++ trace (check_python_version w fs) ++ step_2_header)
     ++ trace (check_and_install_dependencies w fs)
     ++ [EPrint (PyStr.nl +:+ "✅ All dependencies are installed")]
     ++ step_3_header ++ rest).
Proof.
  intros Hall.
  assert (Htame : tame w required_packages).
  { intros p i Hin. left. exact (Hall p i Hin). }
  destruct (check_packages_total w required_packages Htame [] fs) as [t E].
  assert (Hres : map (fun p => (fst p, resolved w p)) required_packages =
                 map (fun p => (fst p, true)) required_packages).
  { apply map_ext_in. intros [p i] Hin%list_elem_of_In.
    unfold resolved, probe_ok. cbn [fst snd]. rewrite (Hall p i Hin). reflexivity. }
  cbn [app] in E. rewrite Hres in E.
  assert (Hv : value (check_and_install_dependencies w fs) =
               Ret (map (fun p => (fst p, true)) required_packages)).
  { unfold check_and_install_dependencies, check_packages. rewrite E. reflexivity. }
  destruct (check_packages_returns w required_packages [] fs _ _ _ E)
    as (_ & _ & _ & Hs).
  rewrite filter_probe_failed_nil in Hs by (intros [p i] Hin; exact (Hall p i Hin)).
  assert (Hrep : trace (report_dependencies
                          (map (fun p => (fst p, true)) required_packages) fs) =
                 [EPrint (PyStr.nl +:+ "✅ All dependencies are installed")])
    by reflexivity.
  split; [|split; [|split]].
  - unfold check_and_install_dependencies, check_packages. rewrite E. exact Hs.
  - exact Hv.
  - exact Hrep.
  - intros Hgate.
    destruct (main_through_dependencies w fs _ Hgate Hv) as [rest Hmain].
    exists rest. rewrite Hmain, Hrep. reflexivity.
Qed.

Lemma all_probes_succeed_no_install_witness :
  spawns_of (trace (check_and_install_dependencies world_3_11 ∅)) = [] /\
  value (check_and_install_dependencies world_3_11 ∅) =
    Ret (map (fun p => (fst p, true)) required_packages) /\
  exists rest,
    trace (main world_3_11 ∅) =
    (banner ++ trace (check_python_version world_3_11 ∅) ++ step_2_header)
    ++ trace (check_and_install_dependencies world_3_11 ∅)
    ++ [EPrint (PyStr.nl +:+ "✅ All dependencies are installed")]
    ++ step_3_header ++ rest.
Proof.
  pose proof (all_probes_succeed_no_install world_3_11 ∅
                (fun _ _ _ => eq_refl)) as (H1 & H2 & _ & H4).
  split; [exact H1 | split; [exact H2 | exact (H4 eq_refl)]].
Defined.

(** C6: in a run of [main] past the version gate where the import probe of
    one package of the list raises [ImportError], its [pip install] fails
    and the probe of every other package succeeds, the failed list is that
    one package, and the summary between the output of the dependency loop
    and the header of step 3 is the line naming that package alone, the
    line announcing the manual commands and the one line
    "   pip install <package>". *)
Theorem single_failure_summary (w : World) (fs : gmap string string)
    (package_name import_name : string) :
  value (check_python_version w fs) = Ret true ->
  (package_name, import_name) ∈ required_packages ->
  (exists msg, import_module w import_name = Some (ImportError msg)) ->
  value (install_package w package_name fs) = Ret false ->
  (forall p i, (p, i) ∈ required_packages -> (p, i) <> (package_name, import_name) ->
               import_module w i = None) ->
  exists results rest,
    value (check_and_install_dependencies w fs) = Ret results /\
    failed_of results = [package_name] /\
    trace (main w fs) =
    (banner ++ trace (check_python_version w fs) ++ step_2_header)
    ++ trace (check_and_install_dependencies w fs)
    ++ [EPrint (PyStr.nl +:+ "❌ Failed to install packages: " +:+ package_name);
        EPrint "Please install them manually using:";
        EPrint ("   pip install " +:+ package_name)]
    ++ step_3_header ++ rest.
Proof.
  intros Hgate Hin [msg Himp] Hpip Hothers.
  apply install_package_false in Hpip as [Hsettles Hexit].
  assert (Htame : tame w required_packages).
  { intros p i Hpi.
    destruct (decide ((p, i) = (package_name, import_name))) as [[= -> ->]|Hne].
    - right. split; [exists msg; exact Himp | exact Hsettles].
    - left. exact (Hothers p i Hpi Hne). }
  destruct (check_packages_total w required_packages Htame [] fs) as [t E].
  cbn [app] in E.
  set (results := map (fun p => (fst p, resolved w p)) required_packages) in *.
  assert (Hv : value (check_and_install_dependencies w fs) = Ret results).
  { unfold check_and_install_dependencies, check_packages. rewrite E. reflexivity. }
  assert (Hfailed : failed_of results = [package_name]).
  { apply (failed_of_single w required_packages (package_name, import_name)).
    - exact required_packages_NoDup.
    - exact Hin.
    - unfold resolved, probe_ok. cbn [fst snd]. rewrite Himp, Hexit. reflexivity.
    - intros [p i] Hpi Hne. unfold resolved, probe_ok. cbn [fst snd].
      rewrite (Hothers p i Hpi Hne). reflexivity. }
  destruct (main_through_dependencies w fs _ Hgate Hv) as [rest Hmain].
  exists results, rest. split; [exact Hv|]. split; [exact Hfailed|].
  rewrite Hmain, report_dependencies_run, Hfailed. reflexivity.
Qed.

Lemma single_failure_summary_witness :
  exists results rest,
    value (check_and_install_dependencies world_no_bs4 ∅) = Ret results /\
    failed_of results = ["beautifulsoup4"] /\
    trace (main world_no_bs4 ∅) =
    (banner ++ trace (check_python_version world_no_bs4 ∅) ++ step_2_header)
    ++ trace (check_and_install_dependencies world_no_bs4 ∅)
    ++ [EPrint (PyStr.nl +:+ "❌ Failed to install packages: " +:+ "beautifulsoup4");
        EPrint "Please install them manually using:";
        EPrint ("   pip install " +:+ "beautifulsoup4")]
    ++ step_3_header ++ rest.
Proof.
  apply (single_failure_summary world_no_bs4 ∅ "beautifulsoup4" "bs4").
  - reflexivity.
  - apply (bool_decide_unpack _). vm_compute. exact I.
  - eexists. reflexivity.
  - reflexivity.
  - intros p i Hin Hne. apply list_elem_of_In in Hin. simpl in Hin.
    repeat (destruct Hin as [[= <- <-] | Hin]; [first [reflexivity | contradiction] |]).
    contradiction.
Defined.

(** ** Facts on strings *)

Module PyStrFacts.

Lemma prefix_spec (a s : string) :
  String.prefix a s = true <-> exists r, s = a +:+ r.
Proof.
  revert s. induction a as [|c a IH]; intros s.
  - split; [intros _; exists s; reflexivity | intros _; destruct s; reflexivity].
  - destruct s as [|d s]; cbn.
    + split; [discriminate | intros [r H]; discriminate H].
    + destruct (ascii_dec c d) as [->|Hne].
      * rewrite IH. split; intros [r H]; exists r.
        -- rewrite H. reflexivity.
        -- injection H as H. exact H.
      * split; [discriminate|]. intros [r H]. injection H as Hc _.
        congruence.
Qed.

Lemma contains_spec (sub s : string) :
  PyStr.contains sub s = true <-> occurs_in sub s.
Proof.
  unfold occurs_in. induction s as [|c s IH]; cbn [PyStr.contains].
  - rewrite orb_false_r, prefix_spec. split.
    + intros [r H]. exists "", r. exact H.
    + intros ([|d a] & b & H); [exists b; exact H | discriminate H].
  - rewrite orb_true_iff, prefix_spec, IH. split.
    + intros [[r H] | (a & b & H)].
      * exists "", r. exact H.
      * exists (String c a), b. cbn. rewrite H. reflexivity.
    + intros ([|d a] & b & H).
      * left. exists b. exact H.
      * right. exists a, b. cbn in H. injection H as _ H. exact H.
Qed.

Lemma take_spec (n : nat) (s : string) :
  (n <= String.length s)%nat ->
  exists rest, s = PyStr.take n s +:+ rest /\ String.length (PyStr.take n s) = n.
Proof.
  revert s. induction n as [|n IH]; intros s Hlen.
  - exists s. split; reflexivity.
  - destruct s as [|c s]; cbn in Hlen; [lia|].
    destruct (IH s ltac:(lia)) as (rest & Hs & Hl).
    exists rest. split.
    + change (String c s = String c (PyStr.take n s +:+ rest)). rewrite <- Hs. reflexivity.
    + simpl. rewrite Hl. reflexivity.
Qed.

End PyStrFacts.

(** ** Stage 3: the runner probe *)

Lemma test_streamlit_run w fs :
  test_streamlit w fs =
  match subprocess w (streamlit_argv w) with
  | Completed rc out =>
      if rc =? 0
      then Out [ESpawn (streamlit_argv w);
                EPrint "✅ Streamlit is working correctly";
                EPrint ("   Version: " +:+ PyStr.strip out)] fs (Ret true)
      else Out [ESpawn (streamlit_argv w); EPrint "❌ Streamlit test failed"]
               fs (Ret false)
  | Failed e =>
      if is_Exception e
      then Out [ESpawn (streamlit_argv w);
                EPrint ("❌ Streamlit test error: " +:+ exn_str e)] fs (Ret false)
      else Out [ESpawn (streamlit_argv w)] fs (Raise e)
  end.
Proof.
  unfold test_streamlit, try_except, subprocess_run, bind, streamlit_argv.
  cbn [emit value trace disk].
  destruct (subprocess w _) as [rc out|e]; cbn [ret raise value trace disk fst snd].
  - destruct (rc =? 0); reflexivity.
  - destruct (is_Exception e); reflexivity.
Qed.

(** ** Stage 4: the credential scanner *)

Lemma check_env_var_run w var desc fs :
  exists line,
    check_env_var w tt (var, desc) fs = Out [EGetenv var; EPrint line] fs (Ret tt) /\
    env_line_spec w var desc line.
Proof.
  unfold check_env_var, os_getenv, env_line_spec.
  destruct (environ w !! var) as [[|c v]|] eqn:E.
  - destruct (PyStr.contains "(Optional)" desc) eqn:Ec.
    + eexists. split; [reflexivity|].
      split; [intros v [= <-]; cbn; lia|].
      split; [intros v [= <-]; congruence|].
      intros _. split; [reflexivity|].
      intros Hn. exfalso. apply Hn, PyStrFacts.contains_spec, Ec.
    + eexists. split; [reflexivity|].
      split; [intros v [= <-]; cbn; lia|].
      split; [intros v [= <-]; congruence|].
      intros _. split; [|reflexivity].
      intros Ho%PyStrFacts.contains_spec. congruence.
  - destruct (8 <? String.length (String c v))%nat eqn:El.
    + eexists. split; [unfold bind; cbn [emit ret value trace disk app];
                       rewrite El; reflexivity|].
      apply Nat.ltb_lt in El.
      split.
      { intros v' [= <-] _.
        destruct (PyStrFacts.take_spec 8 (String c v) ltac:(lia)) as (rest & Hs & Hl).
        exists (PyStr.take 8 (String c v)), rest. repeat split; assumption. }
      split; [intros v' [= <-] _ Hle; lia|].
      intros [H|H]; discriminate H.
    + eexists. split; [unfold bind; cbn [emit ret value trace disk app];
                       rewrite El; reflexivity|].
      apply Nat.ltb_ge in El.
      split; [intros v' [= <-] Hlt; lia|].
      split; [intros v' [= <-] _ _; reflexivity|].
      intros [H|H]; discriminate H.
  - destruct (PyStr.contains "(Optional)" desc) eqn:Ec.
    + eexists. split; [reflexivity|].
      split; [intros v H; discriminate H|].
      split; [intros v H; discriminate H|].
      intros _. split; [reflexivity|].
      intros Hn. exfalso. apply Hn, PyStrFacts.contains_spec, Ec.
    + eexists. split; [reflexivity|].
      split; [intros v H; discriminate H|].
      split; [intros v H; discriminate H|].
      intros _. split; [|reflexivity].
      intros Ho%PyStrFacts.contains_spec. congruence.
Qed.

(** The scan of any list of variables: it reads each one once, prints one
    line for each, never raises and leaves the file system alone. *)
Lemma scan_run w (vars : list (string * string)) fs :
  exists lines,
    for_each vars (check_env_var w) tt fs = Out (scan_events vars lines) fs (Ret tt) /\
    Forall2 (fun p line => env_line_spec w (fst p) (snd p) line) vars lines.
Proof.
  induction vars as [|[var desc] vars (lines & E & Hspec)].
  - exists []. split; [reflexivity | constructor].
  - destruct (check_env_var_run w var desc fs) as (line & E1 & H1).
    exists (line :: lines). split.
    + cbn [for_each]. rewrite (run_bind_ret _ _ _ _ _ _ E1), E. reflexivity.
    + constructor; assumption.
Qed.

Lemma check_environment_variables_run w fs :
  exists lines,
    check_environment_variables w fs = Out (scan_events env_vars lines) fs (Ret tt) /\
    Forall2 (fun p line => env_line_spec w (fst p) (snd p) line) env_vars lines.
Proof. apply scan_run. Qed.

Lemma getenvs_of_scan_events (vars : list (string * string)) (lines : list string) :
  length vars = length lines ->
  getenvs_of (scan_events vars lines) = map fst vars.
Proof.
  revert lines. induction vars as [|p vars IH]; intros [|line lines] Hlen;
    try discriminate Hlen; [reflexivity|].
  unfold getenvs_of, scan_events in *. cbn. f_equal. apply IH.
  injection Hlen as Hlen. exact Hlen.
Qed.

(** The part of a scan that concerns one variable of the list. *)
Lemma scan_events_elem w (vars : list (string * string)) (lines : list string) p :
  Forall2 (fun p line => env_line_spec w (fst p) (snd p) line) vars lines ->
  p ∈ vars ->
  exists line before after,
    scan_events vars lines = before ++ [EGetenv (fst p); EPrint line] ++ after /\
    env_line_spec w (fst p) (snd p) line.
Proof.
  intros Hspec. induction Hspec as [|q line vars lines Hq Hspec IH].
  - intros Hin. inversion Hin.
  - intros [<- | Hin]%elem_of_cons.
    + exists line, [], (scan_events vars lines). split; [reflexivity | exact Hq].
    + destruct (IH Hin) as (line' & before & after & E & Hp).
      exists line', ([EGetenv (fst q); EPrint line] ++ before), after.
      split; [|exact Hp].
      unfold scan_events in *. cbn [zip_with concat]. rewrite E.
      rewrite <- app_assoc. reflexivity.
Qed.

(** ** Stage 5: the template writer *)

Lemma create_env_template_run w fs :
  create_env_template w fs =
  match open_w w ".env.template" with
  | Some e =>
      if is_Exception e
      then Out [EOpen ".env.template";
                EPrint ("❌ Failed to create .env.template: " +:+ exn_str e)]
               fs (Ret false)
      else Out [EOpen ".env.template"] fs (Raise e)
  | None =>
      match write w ".env.template" env_template with
      | Some (e, partial) =>
          if is_Exception e
          then Out [EOpen ".env.template"; EWrite ".env.template" env_template;
                    EPrint ("❌ Failed to create .env.template: " +:+ exn_str e)]
                   (<[".env.template" := partial]> fs) (Ret false)
          else Out [EOpen ".env.template"; EWrite ".env.template" env_template]
                   (<[".env.template" := partial]> fs) (Raise e)
      | None =>
          Out [EOpen ".env.template"; EWrite ".env.template" env_template;
               EPrint "✅ Created .env.template file";
               EPrint "   Copy this to .env and fill in your API keys"]
              (<[".env.template" := env_template]> fs) (Ret true)
      end
  end.
Proof.
  unfold create_env_template, try_except, write_file.
  unfold bind at 1.
  destruct (open_w w ".env.template") as [e|]; cbn [value trace disk].
  - destruct (is_Exception e); reflexivity.
  - destruct (write w ".env.template" env_template) as [[e partial]|];
      cbn [value trace disk].
    + destruct (is_Exception e); reflexivity.
    + reflexivity.
Qed.

(** The writer comes back with an answer unless an exception outside
    [Exception] passes through it; it never touches another file. *)
Lemma create_env_template_disk w fs path :
  path <> ".env.template" ->
  disk (create_env_template w fs) !! path = fs !! path.
Proof.
  intros Hne. rewrite create_env_template_run.
  destruct (open_w w ".env.template") as [e|].
  - destruct (is_Exception e); reflexivity.
  - destruct (write w ".env.template" env_template) as [[e partial]|].
    + destruct (is_Exception e); cbn [disk]; apply lookup_insert_ne; congruence.
    + cbn [disk]. apply lookup_insert_ne. congruence.
Qed.

(** ** The whole pipeline *)

Lemma test_streamlit_disk w fs : disk (test_streamlit w fs) = fs.
Proof.
  rewrite test_streamlit_run.
  destruct (subprocess w (streamlit_argv w)) as [rc out|e].
  - destruct (rc =? 0); reflexivity.
  - destruct (is_Exception e); reflexivity.
Qed.

Lemma outcome_ret {A} (o : outcome A) fs a :
  disk o = fs -> value o = Ret a -> o = Out (trace o) fs (Ret a).
Proof. intros <- <-. apply outcome_eta. Qed.

(** A run of [main] in which the version gate is passed, the dependency
    stage comes back and the runner probe comes back: the five stages follow
    each other, and the run ends as the template writer ends. *)
Lemma main_run w fs results b :
  value (check_python_version w fs) = Ret true ->
  value (check_and_install_dependencies w fs) = Ret results ->
  value (test_streamlit w fs) = Ret b ->
  main w fs =
  Out (up_to_step_3 w fs results
       ++ trace (test_streamlit w fs) ++ step_4_header
       ++ trace (check_environment_variables w fs) ++ step_5_header
       ++ trace (create_env_template w fs)
       ++ match value (create_env_template w fs) with
          | Ret _ => closing
          | Raise _ => []
          end)
      (disk (create_env_template w fs))
      match value (create_env_template w fs) with
      | Ret _ => Ret true
      | Raise e => Raise e
      end.
Proof.
  intros Hgate Hdeps Hprobe.
  destruct (check_python_version_run w fs) as (l1 & l2 & E).
  assert (Hb : (3 <=? major (version_info w)) && (8 <=? minor (version_info w)) = true).
  { rewrite E in Hgate. injection Hgate as Hb. exact Hb. }
  destruct (check_packages_returns w required_packages [] fs _ _ _
              (eq_trans (outcome_eta _) (f_equal _ Hdeps))) as (_ & Hfs & _).
  pose proof (outcome_ret _ _ _ Hfs Hdeps) as Ed.
  pose proof (outcome_ret _ _ _ (test_streamlit_disk w fs) Hprobe) as Ep.
  destruct (check_environment_variables_run w fs) as (lines & Es & _).
  unfold up_to_step_3. rewrite E at 1. rewrite Es at 1. cbn [trace].
  unfold main.
  run_with print_header_run. run_with print_step_run. run_with E.
  rewrite Hb. cbn [negb].
  run_with print_step_run. run_with Ed.
  run_with report_dependencies_run. run_with print_step_run.
  run_with Ep. run_with print_step_run. run_with Es. run_with print_step_run.
  rewrite report_dependencies_run. cbn [trace].
  destruct (create_env_template w fs) as [t5 fs5 [b5|e]] eqn:E5.
  - erewrite run_bind_ret by (exact E5). cbn [trace disk value].
    unfold banner, step_2_header, step_3_header, step_4_header, step_5_header.
    cbn [app]. rewrite <- ?app_assoc. reflexivity.
  - erewrite run_bind_raise by (exact E5). cbn [trace disk value].
    unfold banner, step_2_header, step_3_header, step_4_header, step_5_header.
    cbn [app]. rewrite <- ?app_assoc, ?app_nil_r. reflexivity.
Qed.

(** ** The claims on stages 3 and 4 *)

Example test_streamlit_version_echoed :
  test_streamlit world_3_11 ∅ =
  Out [ESpawn ["/usr/bin/python3"; "-m"; "streamlit"; "version"];
       EPrint "✅ Streamlit is working correctly";
       EPrint "   Version: Streamlit, version 1.30.0"] ∅ (Ret true).
Proof. reflexivity. Qed.

(** C7, as the code has it: the probe has three outcomes whenever the
    launcher runs to its end or the invocation raises an exception derived
    from [Exception] (a missing binary, the 10-second timeout): exit code 0
    reports success, prints the stripped standard output and returns True; a
    non-zero exit code reports a generic failure and returns False; a raised
    [Exception] is caught, reported with its text, and the probe returns
    False.  In these three cases [main] goes on with step 4.  An exception
    outside [Exception], such as [KeyboardInterrupt], is not caught: the
    probe raises it. *)
Theorem test_streamlit_outcomes (w : World) (fs : gmap string string) :
  (forall out,
     subprocess w (streamlit_argv w) = Completed 0 out ->
     test_streamlit w fs =
     Out [ESpawn (streamlit_argv w);
          EPrint "✅ Streamlit is working correctly";
          EPrint ("   Version: " +:+ PyStr.strip out)] fs (Ret true)) /\
  (forall rc out,
     subprocess w (streamlit_argv w) = Completed rc out -> rc <> 0 ->
     test_streamlit w fs =
     Out [ESpawn (streamlit_argv w); EPrint "❌ Streamlit test failed"]
         fs (Ret false)) /\
  (forall e,
     subprocess w (streamlit_argv w) = Failed e -> is_Exception e = true ->
     test_streamlit w fs =
     Out [ESpawn (streamlit_argv w);
          EPrint ("❌ Streamlit test error: " +:+ exn_str e)] fs (Ret false)) /\
  (forall e,
     subprocess w (streamlit_argv w) = Failed e -> is_Exception e = false ->
     test_streamlit w fs = Out [ESpawn (streamlit_argv w)] fs (Raise e)) /\
  (forall results b,
     value (check_python_version w fs) = Ret true ->
     value (check_and_install_dependencies w fs) = Ret results ->
     value (test_streamlit w fs) = Ret b ->
     exists rest,
       trace (main w fs) =
       up_to_step_3 w fs results ++ trace (test_streamlit w fs)
       ++ step_4_header ++ rest).
Proof.
  repeat apply conj.
  - intros out H. rewrite test_streamlit_run, H. reflexivity.
  - intros rc out H Hrc. rewrite test_streamlit_run, H.
    apply Z.eqb_neq in Hrc. rewrite Hrc. reflexivity.
  - intros e H He. rewrite test_streamlit_run, H, He. reflexivity.
  - intros e H He. rewrite test_streamlit_run, H, He. reflexivity.
  - intros results b Hgate Hdeps Hprobe.
    rewrite (main_run w fs results b Hgate Hdeps Hprobe). cbn [trace].
    eexists. reflexivity.
Qed.

Lemma test_streamlit_outcomes_witness :
  test_streamlit world_timeout ∅ =
  Out [ESpawn (streamlit_argv world_timeout);
       EPrint ("❌ Streamlit test error: "
               +:+ exn_str (TimeoutExpired "Command timed out after 10 seconds"))]
      ∅ (Ret false).
Proof.
  apply (proj1 (proj2 (proj2 (test_streamlit_outcomes world_timeout ∅)))).
  - reflexivity.
  - reflexivity.
Defined.

(** C7 as stated fails: the probe can raise.  When the wait for the child is
    interrupted the probe raises [KeyboardInterrupt], and the run ends in
    the driver with status 1. *)
Lemma test_streamlit_interrupt_raises :
  subprocess world_interrupted (streamlit_argv world_interrupted) =
    Failed KeyboardInterrupt /\
  value (test_streamlit world_interrupted ∅) = Raise KeyboardInterrupt /\
  exit_status (script world_interrupted ∅) = 1.
Proof. repeat split; reflexivity. Qed.

Example scan_world_keys :
  trace (check_environment_variables world_keys ∅) =
  [EGetenv "GOOGLE_API_KEY"; EPrint "✅ Google AI API Key: AIzaSyA-...";
   EGetenv "QDRANT_API_KEY"; EPrint "❌ Qdrant API Key: Not set";
   EGetenv "QDRANT_URL"; EPrint "✅ Qdrant URL: local";
   EGetenv "EXA_API_KEY"; EPrint "⚠️ Exa AI API Key (Optional): Not set"].
Proof. reflexivity. Qed.

(** C4: for every variable of the four-entry list the scanner reads the
    variable and prints one line next: for a value longer than 8 characters
    its first 8 characters followed by "..."; for a non-empty value of at
    most 8 characters the value itself; for an unset variable the warning
    with the soft glyph when the description contains "(Optional)" and with
    the hard glyph otherwise.  The scanner reads the four variables in order,
    returns normally in every case, and [main] goes on with step 5. *)
Theorem check_environment_variables_report (w : World) (fs : gmap string string)
    (var desc : string) :
  (var, desc) ∈ env_vars ->
  length env_vars = 4%nat /\
  value (check_environment_variables w fs) = Ret tt /\
  getenvs_of (trace (check_environment_variables w fs)) = map fst env_vars /\
  (exists line before after,
     trace (check_environment_variables w fs) =
       before ++ [EGetenv var; EPrint line] ++ after /\
     (forall v, environ w !! var = Some v -> (8 < String.length v)%nat ->
        exists first8 rest,
          v = first8 +:+ rest /\ String.length first8 = 8%nat /\
          line = "✅ " +:+ desc +:+ ": " +:+ first8 +:+ "...") /\
     (forall v, environ w !! var = Some v -> v <> "" -> (String.length v <= 8)%nat ->
        line = "✅ " +:+ desc +:+ ": " +:+ v) /\
     (environ w !! var = None -> occurs_in "(Optional)" desc ->
        line = "⚠️ " +:+ desc +:+ ": Not set") /\
     (environ w !! var = None -> ~ occurs_in "(Optional)" desc ->
        line = "❌ " +:+ desc +:+ ": Not set")) /\
  (forall results b,
     value (check_python_version w fs) = Ret true ->
     value (check_and_install_dependencies w fs) = Ret results ->
     value (test_streamlit w fs) = Ret b ->
     exists rest,
       trace (main w fs) =
       (up_to_step_3 w fs results ++ trace (test_streamlit w fs) ++ step_4_header)
       ++ trace (check_environment_variables w fs) ++ step_5_header ++ rest).
Proof.
  intros Hin.
  destruct (check_environment_variables_run w fs) as (lines & E & Hspec).
  split; [reflexivity|]. split; [rewrite E; reflexivity|].
  split; [rewrite E; apply getenvs_of_scan_events, (Forall2_length _ _ _ Hspec)|].
  split.
  - destruct (scan_events_elem w env_vars lines (var, desc) Hspec Hin)
      as (line & before & after & Et & H1 & H2 & H3).
    exists line, before, after. rewrite E. cbn [trace fst snd] in *.
    split; [exact Et|]. split; [exact H1|]. split; [exact H2|].
    split; intros Hnone Ho; apply (H3 (or_introl Hnone)); exact Ho.
  - intros results b Hgate Hdeps Hprobe.
    rewrite (main_run w fs results b Hgate Hdeps Hprobe). cbn [trace].
    eexists. rewrite <- !app_assoc. reflexivity.
Qed.

Lemma check_environment_variables_report_witness :
  value (check_environment_variables world_keys ∅) = Ret tt /\
  getenvs_of (trace (check_environment_variables world_keys ∅)) = map fst env_vars.
Proof.
  pose proof (check_environment_variables_report world_keys ∅
                "GOOGLE_API_KEY" "Google AI API Key") as H.
  destruct H as (_ & Hv & Hg & _).
  - apply (bool_decide_unpack _). vm_compute. exact I.
  - split; [exact Hv | exact Hg].
Defined.

Lemma for_each_ext {X S : Type} (l : list X) (body1 body2 : S -> X -> M S) :
  (forall x, x ∈ l -> forall acc fs, body1 acc x fs = body2 acc x fs) ->
  forall acc fs, for_each l body1 acc fs = for_each l body2 acc fs.
Proof.
  induction l as [|x l IH]; intros H acc fs; [reflexivity|].
  cbn [for_each]. unfold bind. rewrite (H x) by left.
  destruct (body2 acc x fs) as [t fs' [acc'|e]]; cbn [value trace disk];
    [|reflexivity].
  rewrite IH; [reflexivity|]. intros y Hy. apply H. right. exact Hy.
Qed.

(** A variable set to the empty string is read like a variable that is not
    there. *)
Lemma check_env_var_empty w var p fs :
  environ w !! var = Some "" ->
  check_env_var w tt p fs =
  check_env_var (with_environ (delete var (environ w)) w) tt p fs.
Proof.
  intros Hempty. destruct p as [name desc].
  unfold check_env_var, os_getenv, bind. cbn [emit ret value trace disk environ with_environ].
  destruct (decide (var = name)) as [<-|Hne].
  - rewrite Hempty, lookup_delete_eq. reflexivity.
  - rewrite lookup_delete_ne by exact Hne. reflexivity.
Qed.

Example scan_world_empty_key :
  trace (check_environment_variables world_empty_key ∅) =
  trace (check_environment_variables world_keys ∅).
Proof. reflexivity. Qed.

(** C9: a variable that is set to the empty string is treated exactly like
    an unset one: the whole scan is what it would be with the variable
    removed from the environment, and the line printed for it is the
    "Not set" warning, with the soft glyph when the description contains
    "(Optional)" and the hard glyph otherwise, not a preview. *)
Theorem empty_value_reported_as_unset (w : World) (fs : gmap string string)
    (var : string) :
  environ w !! var = Some "" ->
  check_environment_variables w fs =
    check_environment_variables (with_environ (delete var (environ w)) w) fs /\
  forall desc,
    (var, desc) ∈ env_vars ->
    exists line before after,
      trace (check_environment_variables w fs) =
        before ++ [EGetenv var; EPrint line] ++ after /\
      (occurs_in "(Optional)" desc -> line = "⚠️ " +:+ desc +:+ ": Not set") /\
      (~ occurs_in "(Optional)" desc -> line = "❌ " +:+ desc +:+ ": Not set").
Proof.
  intros Hempty. split.
  - unfold check_environment_variables. apply for_each_ext.
    intros p _ [] fs'. apply check_env_var_empty. exact Hempty.
  - intros desc Hin.
    destruct (check_environment_variables_run w fs) as (lines & E & Hspec).
    destruct (scan_events_elem w env_vars lines (var, desc) Hspec Hin)
      as (line & before & after & Et & _ & _ & H3).
    exists line, before, after. rewrite E. cbn [trace fst snd] in *.
    split; [exact Et|]. exact (H3 (or_intror Hempty)).
Qed.

Lemma empty_value_reported_as_unset_witness :
  check_environment_variables world_empty_key ∅ =
  check_environment_variables
    (with_environ (delete "QDRANT_API_KEY" (environ world_empty_key)) world_empty_key) ∅.
Proof.
  apply (empty_value_reported_as_unset world_empty_key ∅ "QDRANT_API_KEY").
  vm_compute. reflexivity.
Defined.

(** ** The claim on stage 5 *)

Example template_blocks :
  map credential_block (paragraphs (lines env_template)) =
  [([], true, 0%nat);
   (["GOOGLE_API_KEY"], true, 1%nat);
   (["QDRANT_API_KEY"; "QDRANT_URL"], true, 1%nat);
   (["EXA_API_KEY"], true, 1%nat)].
Proof. vm_compute. reflexivity. Qed.

(** C8: the template is one fixed text: after its heading come exactly
    three credential blocks, for GOOGLE_API_KEY, for QDRANT_API_KEY with
    QDRANT_URL and for EXA_API_KEY, each with placeholder values and one
    comment that says where to get the credential.  When the file can be
    opened and written, the writer writes this text to ".env.template",
    whatever the file held before, touches no other file and returns True,
    so two successful runs leave the same content.  When opening or writing
    raises an exception derived from [Exception], the writer catches it,
    reports the failure with the text of the exception and returns False.
    Whenever the writer returns, [main] ends with its final instructions and
    returns True. *)
Theorem create_env_template_writes (w : World) (fs : gmap string string) :
  map credential_block (paragraphs (lines env_template)) =
    [([], true, 0%nat);
     (["GOOGLE_API_KEY"], true, 1%nat);
     (["QDRANT_API_KEY"; "QDRANT_URL"], true, 1%nat);
     (["EXA_API_KEY"], true, 1%nat)] /\
  (open_w w ".env.template" = None ->
   write w ".env.template" env_template = None ->
   create_env_template w fs =
   Out [EOpen ".env.template"; EWrite ".env.template" env_template;
        EPrint "✅ Created .env.template file";
        EPrint "   Copy this to .env and fill in your API keys"]
       (<[".env.template" := env_template]> fs) (Ret true)) /\
  (value (create_env_template w fs) = Ret true ->
   disk (create_env_template w fs) !! ".env.template" = Some env_template /\
   forall w' fs',
     value (create_env_template w' fs') = Ret true ->
     disk (create_env_template w' fs') !! ".env.template" =
     disk (create_env_template w fs) !! ".env.template") /\
  (forall path, path <> ".env.template" ->
     disk (create_env_template w fs) !! path = fs !! path) /\
  (forall e,
     is_Exception e = true ->
     open_w w ".env.template" = Some e \/
     (open_w w ".env.template" = None /\
      exists partial, write w ".env.template" env_template = Some (e, partial)) ->
     value (create_env_template w fs) = Ret false /\
     last (trace (create_env_template w fs)) =
       Some (EPrint ("❌ Failed to create .env.template: " +:+ exn_str e))) /\
  (forall results b3 b5,
     value (check_python_version w fs) = Ret true ->
     value (check_and_install_dependencies w fs) = Ret results ->
     value (test_streamlit w fs) = Ret b3 ->
     value (create_env_template w fs) = Ret b5 ->
     value (main w fs) = Ret true /\
     exists before,
       trace (main w fs) = before ++ trace (create_env_template w fs) ++ closing).
Proof.
  assert (Hsuccess : forall w0 fs0,
             value (create_env_template w0 fs0) = Ret true ->
             disk (create_env_template w0 fs0) !! ".env.template" = Some env_template).
  { intros w0 fs0. rewrite create_env_template_run.
    destruct (open_w w0 ".env.template") as [e|].
    - destruct (is_Exception e); discriminate.
    - destruct (write w0 ".env.template" env_template) as [[e partial]|].
      + destruct (is_Exception e); discriminate.
      + intros _. cbn [disk]. apply lookup_insert_eq. }
  repeat apply conj.
  - exact template_blocks.
  - intros Ho Hw. rewrite create_env_template_run, Ho, Hw. reflexivity.
  - intros Hv. split; [exact (Hsuccess w fs Hv)|].
    intros w' fs' Hv'. rewrite (Hsuccess w fs Hv). exact (Hsuccess w' fs' Hv').
  - intros path Hne. apply create_env_template_disk. exact Hne.
  - intros e He [Ho | [Ho [partial Hw]]].
    + rewrite create_env_template_run, Ho, He. split; reflexivity.
    + rewrite create_env_template_run, Ho, Hw, He. split; reflexivity.
  - intros results b3 b5 Hgate Hdeps Hprobe Hwriter.
    rewrite (main_run w fs results b3 Hgate Hdeps Hprobe). rewrite Hwriter.
    cbn [trace value]. split; [reflexivity|].
    eexists. rewrite !app_assoc. reflexivity.
Qed.

Lemma create_env_template_writes_witness :
  (create_env_template world_3_11 {[ ".env.template" := "stale" ]} =
   Out [EOpen ".env.template"; EWrite ".env.template" env_template;
        EPrint "✅ Created .env.template file";
        EPrint "   Copy this to .env and fill in your API keys"]
       (<[".env.template" := env_template]> {[ ".env.template" := "stale" ]})
       (Ret true)) /\
  (value (create_env_template world_read_only ∅) = Ret false /\
   last (trace (create_env_template world_read_only ∅)) =
     Some (EPrint ("❌ Failed to create .env.template: "
                   +:+ exn_str (OSError "[Errno 13] Permission denied: '.env.template'")))).
Proof.
  split.
  - apply (proj1 (proj2 (create_env_template_writes world_3_11
                           {[ ".env.template" := "stale" ]}))); reflexivity.
  - apply (proj1 (proj2 (proj2 (proj2 (proj2
             (create_env_template_writes world_read_only ∅)))))).
    + reflexivity.
    + left. reflexivity.
Defined.

(** ** A whole run *)

Example full_run_world_3_11 :
  value (main world_3_11 ∅) = Ret true /\
  exit_status (script world_3_11 ∅) = 0 /\
  disk (script world_3_11 ∅) !! ".env.template" = Some env_template.
Proof. repeat split; vm_compute; reflexivity. Qed.

(** ** Confinement: a calculus for what a computation may do *)

Section Confined.

Variable P : event -> Prop.

Lemma template_set_twice c2 c1 fs :
  template_set c2 (template_set c1 fs) =
  template_set (match c2 with Some _ => c2 | None => c1 end) fs.
Proof.
  destruct c2 as [x|]; [|reflexivity].
  destruct c1 as [y|]; [|reflexivity].
  cbn. apply insert_insert_eq.
Qed.

Lemma confined_ret {A} (a : A) : confined P (ret a).
Proof. exists [], None, (Ret a). split; [constructor | reflexivity]. Qed.

Lemma confined_raise {A} (e : exn) : confined P (@raise A e).
Proof. exists [], None, (Raise e). split; [constructor | reflexivity]. Qed.

Lemma confined_emit (ev : event) : P ev -> confined P (emit ev).
Proof.
  intros H. exists [ev], None, (Ret tt).
  split; [repeat constructor; exact H | reflexivity].
Qed.

Lemma confined_bind {A B} (m : M A) (k : A -> M B) :
  confined P m -> (forall a, confined P (k a)) -> confined P (bind m k).
Proof.
  intros (t & c & v & Ht & Hm) Hk.
  destruct v as [a|e].
  - destruct (Hk a) as (t' & c' & v' & Ht' & Hka).
    exists (t ++ t'), (match c' with Some _ => c' | None => c end), v'.
    split; [apply Forall_app; split; assumption|].
    intros fs. unfold bind. rewrite Hm. cbn [value trace disk].
    rewrite Hka. cbn [value trace disk]. rewrite template_set_twice. reflexivity.
  - exists t, c, (Raise e). split; [exact Ht|].
    intros fs. unfold bind. rewrite Hm. reflexivity.
Qed.

(** Only the handlers of the exceptions that the body raises matter. *)
Lemma confined_try_except {A} (body : M A) (handler : exn -> option (M A)) :
  confined P body ->
  (forall e h,
     (exists fs, value (body fs) = Raise e) -> handler e = Some h -> confined P h) ->
  confined P (try_except body handler).
Proof.
  intros (t & c & v & Ht & Hm) Hh.
  destruct v as [a|e].
  - exists t, c, (Ret a). split; [exact Ht|].
    intros fs. unfold try_except. rewrite Hm. reflexivity.
  - destruct (handler e) as [h|] eqn:E.
    + destruct (Hh e h (ex_intro _ ∅ (f_equal value (Hm ∅))) E)
        as (t' & c' & v' & Ht' & Hhe).
      exists (t ++ t'), (match c' with Some _ => c' | None => c end), v'.
      split; [apply Forall_app; split; assumption|].
      intros fs. unfold try_except. rewrite Hm. cbn [value trace disk].
      rewrite E, Hhe. cbn [value trace disk]. rewrite template_set_twice. reflexivity.
    + exists t, c, (Raise e). split; [exact Ht|].
      intros fs. unfold try_except. rewrite Hm. cbn [value]. rewrite E. reflexivity.
Qed.

Lemma confined_for_each {X S} (l : list X) (body : S -> X -> M S) :
  (forall acc x, x ∈ l -> confined P (body acc x)) ->
  forall acc, confined P (for_each l body acc).
Proof.
  induction l as [|x l IH]; intros H acc; cbn [for_each].
  - apply confined_ret.
  - apply confined_bind; [apply H; left|].
    intros acc'. apply IH. intros acc'' y Hy. apply H. right. exact Hy.
Qed.

End Confined.

Lemma confined_print P (s : string) : (forall line, P (EPrint line)) -> confined P (print s).
Proof. intros H. apply confined_emit, H. Qed.

(** What confinement gives on a run. *)
Lemma confined_run P {A} (m : M A) :
  confined P m ->
  (forall fs, Forall P (trace (m fs))) /\
  (forall fs path, path <> ".env.template" -> disk (m fs) !! path = fs !! path) /\
  (forall fs fs', trace (m fs') = trace (m fs) /\ value (m fs') = value (m fs)) /\
  (forall fs, disk (m (disk (m fs))) = disk (m fs)).
Proof.
  intros (t & c & v & Ht & Hm). repeat apply conj.
  - intros fs. rewrite Hm. exact Ht.
  - intros fs path Hne. rewrite Hm. cbn [disk].
    destruct c as [x|]; [|reflexivity]. cbn. apply lookup_insert_ne. congruence.
  - intros fs fs'. rewrite !Hm. split; reflexivity.
  - intros fs. rewrite !Hm. cbn [disk]. rewrite template_set_twice.
    destruct c; reflexivity.
Qed.

(** ** The script is confined *)

Ltac confine_step :=
  cbv beta;
  lazymatch goal with
  | |- confined _ (ret _) => apply confined_ret
  | |- confined _ (raise _) => apply confined_raise
  | |- confined _ (sys_exit _) => apply confined_raise
  | |- confined _ (print _) => apply confined_print; intros; exact I
  | |- confined _ (bind _ _) => apply confined_bind; [|intros ?]
  | |- confined _ (if ?b then _ else _) => destruct b
  | |- confined _ (match ?x with _ => _ end) => destruct x
  end.

Ltac confine := repeat confine_step.

Section ScriptConfined.

Variable w : World.

Lemma print_header_confined text : confined (allowed w) (print_header text).
Proof. unfold print_header. confine. Qed.

Lemma print_step_confined step text : confined (allowed w) (print_step step text).
Proof. unfold print_step. confine. Qed.

Lemma check_python_version_confined : confined (allowed w) (check_python_version w).
Proof. unfold check_python_version. confine. Qed.

Lemma install_package_confined package_name import_name msg :
  (package_name, import_name) ∈ required_packages ->
  import_module w import_name = Some (ImportError msg) ->
  confined (allowed w) (install_package w package_name).
Proof.
  intros Hin Himp. unfold install_package, check_call.
  apply confined_try_except.
  - apply confined_bind; [|intros ?; apply confined_ret].
    apply confined_bind.
    + apply confined_emit. right. exists package_name, import_name, msg.
      repeat split; assumption.
    + intros _. confine.
  - intros e h _. destruct e; intros [= <-]. apply confined_ret.
Qed.

Lemma check_package_confined results p :
  p ∈ required_packages -> confined (allowed w) (check_package w results p).
Proof.
  intros Hin. destruct p as [package_name import_name].
  unfold check_package.
  apply confined_try_except.
  - unfold importlib_import_module.
    apply confined_bind; [|intros ?; confine].
    apply confined_bind.
    + apply confined_emit. exact (list_elem_of_fmap_2 snd _ _ Hin).
    + intros _. confine.
  - intros e h [fs Hraised] Hh.
    assert (Himp : import_module w import_name = Some e).
    { revert Hraised. unfold importlib_import_module, bind.
      cbn [emit value trace disk].
      destruct (import_module w import_name) as [e'|]; cbn [raise ret value trace disk].
      - intros [= ->]. reflexivity.
      - discriminate. }
    destruct e; try discriminate Hh. injection Hh as <-.
    apply confined_bind; [confine|]. intros _.
    apply confined_bind; [|intros ?; confine].
    exact (install_package_confined _ _ _ Hin Himp).
Qed.

Lemma check_and_install_dependencies_confined :
  confined (allowed w) (check_and_install_dependencies w).
Proof.
  unfold check_and_install_dependencies, check_packages.
  apply confined_for_each. intros acc p Hin. apply check_package_confined, Hin.
Qed.

Lemma report_dependencies_confined results :
  confined (allowed w) (report_dependencies results).
Proof.
  unfold report_dependencies.
  destruct (map fst _) as [|pkg failed]; [confine|].
  apply confined_bind; [confine|]. intros _.
  apply confined_bind; [confine|]. intros _.
  apply confined_for_each. intros _ x _. confine.
Qed.

Lemma test_streamlit_confined : confined (allowed w) (test_streamlit w).
Proof.
  unfold test_streamlit, subprocess_run.
  apply confined_try_except.
  - apply confined_bind; [|intros ?; confine].
    apply confined_bind; [apply confined_emit; left; reflexivity|].
    intros _. confine.
  - intros e h _. destruct (is_Exception e); intros [= <-]. confine.
Qed.

Lemma check_environment_variables_confined :
  confined (allowed w) (check_environment_variables w).
Proof.
  unfold check_environment_variables.
  apply confined_for_each. intros [] [var desc] Hin.
  unfold check_env_var, os_getenv.
  apply confined_bind.
  - apply confined_bind; [|intros ?; confine].
    apply confined_emit. exact (list_elem_of_fmap_2 fst _ _ Hin).
  - intros [[|c v]|]; confine.
Qed.

Lemma write_file_confined :
  confined (allowed w) (write_file w ".env.template" env_template).
Proof.
  unfold write_file, confined.
  destruct (open_w w ".env.template") as [e|].
  - exists [EOpen ".env.template"], None, (Raise e).
    split; [repeat constructor | reflexivity].
  - destruct (write w ".env.template" env_template) as [[e partial]|].
    + exists [EOpen ".env.template"; EWrite ".env.template" env_template],
        (Some partial), (Raise e).
      split; [repeat constructor | reflexivity].
    + exists [EOpen ".env.template"; EWrite ".env.template" env_template],
        (Some env_template), (Ret tt).
      split; [repeat constructor | reflexivity].
Qed.

Lemma create_env_template_confined : confined (allowed w) (create_env_template w).
Proof.
  unfold create_env_template.
  apply confined_try_except.
  - apply confined_bind; [apply write_file_confined|]. intros _. confine.
  - intros e h _. destruct (is_Exception e); intros [= <-]. confine.
Qed.

Lemma main_confined : confined (allowed w) (main w).
Proof.
  unfold main.
  apply confined_bind; [apply print_header_confined|]. intros _.
  apply confined_bind; [apply print_step_confined|]. intros _.
  apply confined_bind; [apply check_python_version_confined|]. intros ok.
  destruct (negb ok); [confine|].
  apply confined_bind; [apply print_step_confined|]. intros _.
  apply confined_bind; [apply check_and_install_dependencies_confined|]. intros results.
  apply confined_bind; [apply report_dependencies_confined|]. intros _.
  apply confined_bind; [apply print_step_confined|]. intros _.
  apply confined_bind; [apply test_streamlit_confined|]. intros _.
  apply confined_bind; [apply print_step_confined|]. intros _.
  apply confined_bind; [apply check_environment_variables_confined|]. intros _.
  apply confined_bind; [apply print_step_confined|]. intros _.
  apply confined_bind; [apply create_env_template_confined|]. intros _.
  apply confined_bind; [apply print_header_confined|]. intros _.
  confine.
Qed.

Lemma script_confined : confined (allowed w) (script w).
Proof.
  unfold script. apply confined_try_except.
  - apply confined_bind; [apply main_confined | intros _; apply confined_ret].
  - intros e h _. destruct e; cbn [is_Exception]; intros [= <-]; confine.
Qed.

End ScriptConfined.

(** ** Further properties of the script *)

(** X1: every event of a run of the script, whatever the world does, is a
    print, the probe of a module of the package list, the start of the
    Streamlit probe or of [pip install] for a package of the list whose
    probe raises [ImportError], the reading of one of the four variables, or
    the opening or writing of ".env.template" with the template text: the
    script starts no other process, installs nothing that loads, reads no
    other variable and opens no other file. *)
Theorem script_events_allowed (w : World) (fs : gmap string string) :
  Forall (allowed w) (trace (script w fs)).
Proof. apply (confined_run _ _ (script_confined w)). Qed.







Lemma outcome_raise {A} (o : outcome A) e :
  value o = Raise e -> o = Out (trace o) (disk o) (Raise e).
Proof. intros <-. apply outcome_eta. Qed.


Lemma main_stops_in_dependencies w fs e :
  value (check_python_version w fs) = Ret true ->
  value (check_and_install_dependencies w fs) = Raise e ->
  main w fs =
  Out (banner ++ trace (check_python_version w fs) ++ step_2_header
       ++ trace (check_and_install_dependencies w fs))
      (disk (check_and_install_dependencies w fs)) (Raise e).
Proof.
  intros Hgate Hdeps.
  destruct (check_python_version_run w fs) as (l1 & l2 & E).
  assert (Hb : (3 <=? major (version_info w)) && (8 <=? minor (version_info w)) = true).
  { rewrite E in Hgate. injection Hgate as Hb. exact Hb. }
  pose proof (outcome_raise _ _ Hdeps) as Ed.
  rewrite E at 1. cbn [trace].
  unfold main.
  run_with print_header_run. run_with print_step_run. run_with E.
  rewrite Hb. cbn [negb].
  run_with print_step_run.
  erewrite run_bind_raise by (exact Ed). reflexivity.
Qed.

Lemma main_stops_in_probe w fs results e :
  value (check_python_version w fs) = Ret true ->
  value (check_and_install_dependencies w fs) = Ret results ->
  value (test_streamlit w fs) = Raise e ->
  main w fs = Out (up_to_step_3 w fs results ++ trace (test_streamlit w fs)) fs (Raise e).
Proof.
  intros Hgate Hdeps Hprobe.
  destruct (check_python_version_run w fs) as (l1 & l2 & E).
  assert (Hb : (3 <=? major (version_info w)) && (8 <=? minor (version_info w)) = true).
  { rewrite E in Hgate. injection Hgate as Hb. exact Hb. }
  destruct (check_packages_returns w required_packages [] fs _ _ _
              (eq_trans (outcome_eta _) (f_equal _ Hdeps))) as (_ & Hfs & _).
  pose proof (outcome_ret _ _ _ Hfs Hdeps) as Ed.
  pose proof (outcome_raise _ _ Hprobe) as Ep.
  rewrite test_streamlit_disk in Ep.
  unfold up_to_step_3. rewrite E at 1. cbn [trace].
  unfold main.
  run_with print_header_run. run_with print_step_run. run_with E.
  rewrite Hb. cbn [negb].
  run_with print_step_run. run_with Ed.
  run_with report_dependencies_run. run_with print_step_run.
  erewrite run_bind_raise by (exact Ep).
  rewrite report_dependencies_run. cbn [trace].
  unfold banner, step_2_header, step_3_header.
  cbn [app]. rewrite <- ?app_assoc. reflexivity.
Qed.



(** X6: when [main] raises, the driver turns the exception into exit status
    1: for [KeyboardInterrupt] it prints the line that the setup was
    interrupted, for an exception derived from [Exception] it prints the
    line that the setup failed, with the text of the exception; nothing else
    is printed and the files are as [main] left them. *)
Theorem script_on_exception (w : World) (fs : gmap string string) (e : exn) :
  value (main w fs) = Raise e ->
  (e = KeyboardInterrupt ->
   script w fs =
   Out (trace (main w fs)
        ++ [EPrint (PyStr.nl +:+ PyStr.nl +:+ "❌ Setup interrupted by user")])
       (disk (main w fs)) (Raise (SystemExit 1))) /\
  (is_Exception e = true ->
   script w fs =
   Out (trace (main w fs)
        ++ [EPrint (PyStr.nl +:+ PyStr.nl +:+ "❌ Setup failed with error: "
                    +:+ exn_str e)])
       (disk (main w fs)) (Raise (SystemExit 1))) /\
  ((forall code, e <> SystemExit code) -> exit_status (script w fs) = 1).
Proof.
  intros Hv.
  assert (Hrun : script w fs =
                 match e with
                 | KeyboardInterrupt =>
                     Out (trace (main w fs)
                          ++ [EPrint (PyStr.nl +:+ PyStr.nl
                                      +:+ "❌ Setup interrupted by user")])
                         (disk (main w fs)) (Raise (SystemExit 1))
                 | SystemExit code =>
                     Out (trace (main w fs)) (disk (main w fs)) (Raise (SystemExit code))
                 | _ =>
                     Out (trace (main w fs)
                          ++ [EPrint (PyStr.nl +:+ PyStr.nl
                                      +:+ "❌ Setup failed with error: " +:+ exn_str e)])
                         (disk (main w fs)) (Raise (SystemExit 1))
                 end).
  { unfold script, try_except.
    rewrite (run_bind_raise _ _ _ _ _ _ (outcome_raise _ _ Hv)).
    cbn [value trace disk]. destruct e; reflexivity. }
  rewrite Hrun. repeat apply conj.
  - intros ->. reflexivity.
  - destruct e; try discriminate; intros _; reflexivity.
  - intros Hne. destruct e; try reflexivity. exfalso. eapply Hne. reflexivity.
Qed.

Lemma script_on_exception_witness :
  exit_status (script world_interrupted ∅) = 1 /\
  exit_status (script world_broken_module ∅) = 1.
Proof.
  split.
  - apply (script_on_exception world_interrupted ∅ KeyboardInterrupt).
    + vm_compute. reflexivity.
    + intros code. discriminate.
  - apply (script_on_exception world_broken_module ∅
             (OtherException "invalid syntax (chains.py, line 3)")).
    + vm_compute. reflexivity.
    + intros code. discriminate.
Defined.

(** X7: the value [main] returns is the answer of the version gate and
    nothing else: when [main] returns at all, it returns False exactly when
    the gate turned the interpreter away; failed installs, a failed
    Streamlit probe and a template that could not be written leave it
    True. *)
Theorem main_result_is_gate_answer (w : World) (fs : gmap string string) (b : bool) :
  value (main w fs) = Ret b ->
  value (check_python_version w fs) = Ret b.
Proof.
  intros Hmain.
  destruct (check_python_version_run w fs) as (l1 & l2 & E).
  destruct ((3 <=? major (version_info w)) && (8 <=? minor (version_info w))) eqn:Hb.
  - assert (Hgate : value (check_python_version w fs) = Ret true)
      by (rewrite E; reflexivity).
    rewrite Hgate. f_equal.
    destruct (value (check_and_install_dependencies w fs)) as [results|e] eqn:Hdeps.
    + destruct (value (test_streamlit w fs)) as [b3|e] eqn:Hprobe.
      * rewrite (main_run w fs results b3 Hgate Hdeps Hprobe) in Hmain.
        cbn [value] in Hmain.
        destruct (value (create_env_template w fs)); congruence.
      * rewrite (main_stops_in_probe w fs results e Hgate Hdeps Hprobe) in Hmain.
        discriminate Hmain.
    + rewrite (main_stops_in_dependencies w fs e Hgate Hdeps) in Hmain.
      discriminate Hmain.
  - assert (Hgate : value (check_python_version w fs) = Ret false)
      by (rewrite E; reflexivity).
    rewrite (main_rejected w fs Hgate) in Hmain. rewrite Hgate.
    cbn [value] in Hmain. congruence.
Qed.

Lemma main_result_is_gate_answer_witness :
  value (check_python_version world_all_fail ∅) = Ret true.
Proof.
  apply (main_result_is_gate_answer world_all_fail ∅ true).
  vm_compute. reflexivity.
Defined.

(** X8: advisory failures never change the exit status.  When every probe
    loads its module or raises [ImportError], every install that is needed
    comes back, and what the Streamlit call or the template file raise, if
    anything, derives from [Exception], the run ends with exit status 0,
    [main] having returned, whatever failed on the way. *)
Theorem advisory_failures_exit_0 (w : World) (fs : gmap string string) :
  tame w required_packages ->
  (forall e, subprocess w (streamlit_argv w) = Failed e -> is_Exception e = true) ->
  (forall e, open_w w ".env.template" = Some e -> is_Exception e = true) ->
  (forall e partial,
     write w ".env.template" env_template = Some (e, partial) ->
     is_Exception e = true) ->
  exit_status (script w fs) = 0 /\
  exists b, value (main w fs) = Ret b.
Proof.
  intros Htame Hprobe Hopen Hwrite.
  assert (Hret : exists b, value (main w fs) = Ret b).
  { destruct (check_python_version_run w fs) as (l1 & l2 & E).
    destruct ((3 <=? major (version_info w)) && (8 <=? minor (version_info w))).
    - assert (Hgate : value (check_python_version w fs) = Ret true)
        by (rewrite E; reflexivity).
      destruct (check_packages_total w required_packages Htame [] fs) as [t Ed].
      assert (Hdeps : value (check_and_install_dependencies w fs) =
                      Ret ([] ++ map (fun p => (fst p, resolved w p)) required_packages)).
      { unfold check_and_install_dependencies, check_packages. rewrite Ed. reflexivity. }
      assert (Hts : exists b3, value (test_streamlit w fs) = Ret b3).
      { rewrite test_streamlit_run.
        destruct (subprocess w (streamlit_argv w)) as [rc out|e] eqn:Es.
        - destruct (rc =? 0); eexists; reflexivity.
        - rewrite (Hprobe e eq_refl). eexists. reflexivity. }
      destruct Hts as [b3 Hts].
      assert (Hct : exists b5, value (create_env_template w fs) = Ret b5).
      { rewrite create_env_template_run.
        destruct (open_w w ".env.template") as [e|] eqn:Eo.
        - rewrite (Hopen e eq_refl). eexists. reflexivity.
        - destruct (write w ".env.template" env_template) as [[e partial]|] eqn:Ew.
          + rewrite (Hwrite e partial eq_refl). eexists. reflexivity.
          + eexists. reflexivity. }
      destruct Hct as [b5 Hct].
      exists true. rewrite (main_run w fs _ b3 Hgate Hdeps Hts). cbn [value].
      rewrite Hct. reflexivity.
    - exists false. rewrite main_rejected by (rewrite E; reflexivity). reflexivity. }
  split; [|exact Hret].
  destruct Hret as [b Hb]. rewrite (script_after_return w fs b Hb). reflexivity.
Qed.

Lemma world_all_fail_tame : tame world_all_fail required_packages.
Proof.
  intros package_name import_name _. right.
  split; [eexists; reflexivity | exact I].
Qed.

Lemma advisory_failures_exit_0_witness :
  exit_status (script world_all_fail ∅) = 0 /\
  exists b, value (main world_all_fail ∅) = Ret b.
Proof.
  apply (advisory_failures_exit_0 world_all_fail ∅).
  - exact world_all_fail_tame.
  - intros e H. vm_compute in H. discriminate H.
  - intros e H. vm_compute in H. discriminate H.
  - intros e partial H. vm_compute in H. injection H as <- _. reflexivity.
Defined.

Lemma append_inv_head (a x y : string) : a +:+ x = a +:+ y -> x = y.
Proof.
  induction a as [|c a IH]; intros H; [exact H|].
  apply IH. injection H as H. exact H.
Qed.

Lemma take_append (n : nat) (p r : string) :
  String.length p = n -> PyStr.take n (p +:+ r) = p.
Proof.
  revert n. induction p as [|c p IH]; intros n Hn; cbn in Hn; subst n.
  - reflexivity.
  - change (String c (PyStr.take (String.length p) (p +:+ r)) = String c p).
    rewrite (IH _ eq_refl). reflexivity.
Qed.

Lemma length_append_longer (p r : string) :
  r <> "" -> (String.length p < String.length (p +:+ r))%nat.
Proof.
  intros Hr. induction p as [|c p IH].
  - destruct r as [|d r]; [congruence|].
    change (0 < S (String.length r))%nat. lia.
  - change (S (String.length p) < S (String.length (p +:+ r)))%nat. lia.
Qed.

(** The turn of the scanner on a value longer than 8 characters. *)
Lemma check_env_var_long w var desc v fs :
  environ w !! var = Some v ->
  (8 < String.length v)%nat ->
  check_env_var w tt (var, desc) fs =
  Out [EGetenv var; EPrint ("✅ " +:+ desc +:+ ": " +:+ PyStr.take 8 v +:+ "...")]
      fs (Ret tt).
Proof.
  intros Hv Hlen. unfold check_env_var, os_getenv, bind.
  cbn [emit ret value trace disk app]. rewrite Hv.
  destruct v as [|c v]; [cbn in Hlen; lia|].
  apply Nat.ltb_lt in Hlen. rewrite Hlen. reflexivity.
Qed.

(** The turn of the scanner on a variable that is unset or empty. *)
Lemma check_env_var_unset w var desc fs :
  environ w !! var = None \/ environ w !! var = Some "" ->
  check_env_var w tt (var, desc) fs =
  Out [EGetenv var;
       EPrint ((if PyStr.contains "(Optional)" desc then "⚠️" else "❌")
               +:+ " " +:+ desc +:+ ": Not set")]
      fs (Ret tt).
Proof.
  intros [Hv | Hv]; unfold check_env_var, os_getenv, bind;
    cbn [emit ret value trace disk app]; rewrite Hv; reflexivity.
Qed.

(** X9: the credential scanner sees of the environment only the four
    variables, and of each of them only whether it is unset or empty, its
    value when this has at most 8 characters, and its first 8 characters
    otherwise: two environments that agree on this give the same scan, line
    for line, so no character of a long value after the eighth reaches the
    output. *)
Theorem scan_depends_on_previews (w w' : World) (fs : gmap string string) :
  (forall var desc,
     (var, desc) ∈ env_vars ->
     same_view (environ w !! var) (environ w' !! var)) ->
  check_environment_variables w fs = check_environment_variables w' fs.
Proof.
  intros Hview. unfold check_environment_variables.
  apply for_each_ext. intros [var desc] Hin [] fs'.
  destruct (Hview var desc Hin)
    as [Heq | [[Hu Hu'] | (first8 & r & r' & Hl & Hr & Hr' & Hv & Hv')]].
  - unfold check_env_var, os_getenv, bind. cbn [emit ret value trace disk app].
    rewrite Heq. reflexivity.
  - rewrite (check_env_var_unset w var desc fs' Hu).
    rewrite (check_env_var_unset w' var desc fs' Hu'). reflexivity.
  - rewrite (check_env_var_long w var desc _ fs' Hv)
      by (pose proof (length_append_longer first8 r Hr); lia).
    rewrite (check_env_var_long w' var desc _ fs' Hv')
      by (pose proof (length_append_longer first8 r' Hr'); lia).
    rewrite !take_append by exact Hl. reflexivity.
Qed.

Lemma scan_depends_on_previews_witness :
  check_environment_variables world_keys ∅ =
  check_environment_variables world_keys_variant ∅.
Proof.
  apply (scan_depends_on_previews world_keys world_keys_variant ∅).
  intros var desc Hin. apply list_elem_of_In in Hin. simpl in Hin.
  destruct Hin as [[= <- <-] | [[= <- <-] | [[= <- <-] | [[= <- <-] | []]]]].
  - right. right. exists "AIzaSyA-", "0123456789ab", "zzzzzzzzzzzzzzzzzzzzzzzz".
    repeat split; try discriminate; vm_compute; reflexivity.
  - right. left. split; [left | right]; vm_compute; reflexivity.
  - left. vm_compute. reflexivity.
  - left. vm_compute. reflexivity.
Defined.

Lemma failed_of_elem (results : list (string * bool)) (p : string) :
  p ∈ failed_of results <-> (p, false) ∈ results.
Proof.
  unfold failed_of. induction results as [|[q b] results IH].
  - cbn. split; intros H; inversion H.
  - cbn [List.filter snd]. destruct b; cbn [negb map fst].
    + rewrite IH, elem_of_cons. split; [intros H; right; exact H|].
      intros [[= _] | H]; exact H.
    + rewrite !elem_of_cons, IH. split.
      * intros [-> | H]; [left; reflexivity | right; exact H].
      * intros [[= ->] | H]; [left; reflexivity | right; exact H].
Qed.

(** X10: the summary of the dependency stage, for any result list: it
    returns normally and changes no file; it prints the remediation line
    "   pip install <package>" for a package exactly when the package has the
    flag False in the results; and it prints "All dependencies are
    installed" exactly when no result has the flag False. *)
Theorem report_dependencies_lines (results : list (string * bool))
    (fs : gmap string string) :
  value (report_dependencies results fs) = Ret tt /\
  disk (report_dependencies results fs) = fs /\
  (forall p,
     EPrint ("   pip install " +:+ p) ∈ trace (report_dependencies results fs) <->
     (p, false) ∈ results) /\
  (EPrint (PyStr.nl +:+ "✅ All dependencies are installed")
     ∈ trace (report_dependencies results fs) <->
   forall p b, (p, b) ∈ results -> b = true).
Proof.
  rewrite report_dependencies_run. cbn [value disk trace].
  split; [reflexivity|]. split; [reflexivity|].
  destruct (failed_of results) as [|f failed] eqn:Hf.
  - assert (Hnone : forall p, (p, false) ∉ results).
    { intros p Hp%failed_of_elem. rewrite Hf in Hp. inversion Hp. }
    split.
    + intros p. split.
      * intros [H | H]%elem_of_cons; [|inversion H].
        vm_compute in H. discriminate H.
      * intros H. destruct (Hnone p H).
    + split; [|intros _; left].
      intros _ p [|] Hin; [reflexivity | destruct (Hnone p Hin)].
  - split.
    + intros p. rewrite <- failed_of_elem, Hf. split.
      * intros [H | [H | H]%elem_of_cons]%elem_of_cons.
        -- vm_compute in H. discriminate H.
        -- vm_compute in H. discriminate H.
        -- apply list_elem_of_fmap in H as (x & [= Hx] & Hin).
           apply append_inv_head in Hx. subst x. exact Hin.
      * intros Hin. right. right.
        apply (list_elem_of_fmap_2 (fun pkg => EPrint ("   pip install " +:+ pkg))).
        exact Hin.
    + split.
      * intros [H | [H | H]%elem_of_cons]%elem_of_cons.
        -- vm_compute in H. discriminate H.
        -- vm_compute in H. discriminate H.
        -- apply list_elem_of_fmap in H as (x & H & _).
           vm_compute in H. discriminate H.
      * intros Hall. exfalso.
        assert (Hin : (f, false) ∈ results) by (apply failed_of_elem; rewrite Hf; left).
        specialize (Hall f false Hin). discriminate Hall.
Qed.




